(** * MuSA: forcing perturbation (modules/met_tools.py) and the per-cell
      assimilation driver (modules/cell_assim.py)

    A shallow embedding of the noise generator, the bounded logit transforms
    and the cell driver, with the properties the specification states about
    them.

    - Python exceptions are an inductive type; a computation either returns a
      value or raises, and in both cases hands back the interpreter state.
    - numpy arrays live in a store and are passed by reference, so that the
      in-place masked assignments of [glogit] and [gexpit] are visible to the
      caller.
    - float64 arithmetic is an interface [NumOps], instantiated with IEEE 754
      binary64 (the kernel's primitive floats), on which the code is
      evaluated; what holds of the control flow and of the store is proved for
      every instance.
    - numpy's global random generator and scipy's [logit]/[expit] are external:
      they are parameters of the development. *)

From Stdlib Require Import String Ascii ZArith List Bool Lia.
From Stdlib Require Floats.PrimFloat Numbers.Cyclic.Int63.Uint63 DecimalString.
From Stdlib Require Floats.SpecFloat Floats.FloatOps Floats.FloatAxioms.
From Stdlib Require Import Sorting.Permutation.
Import ListNotations.

Set Implicit Arguments.

(* ------------------------------------------------------------------------- *)
(** ** Python outcomes: a state and exception monad *)

Module Py.

(** The exceptions the two modules can raise. [Exception] is the bare
    [raise Exception(msg)] of the source. *)
Inductive exc : Type :=
| Exception (msg : string)
| TypeError (msg : string)
| KeyError (key : string)
| IndexError
| ValueError
| NameError (name : string)
| FileNotFoundError.

Inductive outcome (S A : Type) : Type :=
| Ok (a : A) (s : S)
| Raise (e : exc) (s : S).
Arguments Ok {S A} a s.
Arguments Raise {S A} e s.

Definition M (S A : Type) : Type := S -> outcome S A.

Definition ret {S A} (a : A) : M S A := fun s => Ok a s.

Definition bind {S A B} (m : M S A) (k : A -> M S B) : M S B :=
  fun s => match m s with
           | Ok a s' => k a s'
           | Raise e s' => Raise e s'
           end.

Definition raise {S A} (e : exc) : M S A := fun s => Raise e s.

(** [o] is a value or the exception [e]. *)
Definition lift_option {S A} (e : exc) (o : option A) : M S A :=
  match o with Some a => ret a | None => raise e end.

(** The state an outcome leaves behind. *)
Definition final_state {S A} (o : outcome S A) : S :=
  match o with Ok _ s => s | Raise _ s => s end.

End Py.

Import Py.

Declare Scope py_scope.
Delimit Scope py_scope with py.
Notation "x <- m ;; k" := (bind m (fun x => k))
  (at level 61, m at next level, right associativity) : py_scope.
Notation "m ;;; k" := (bind m (fun _ => k))
  (at level 61, right associativity) : py_scope.

(* ------------------------------------------------------------------------- *)
(** ** float64 arithmetic as an interface *)

Class NumOps (F : Type) : Type := {
  fadd : F -> F -> F;
  fsub : F -> F -> F;
  fmul : F -> F -> F;
  fdiv : F -> F -> F;
  fabs : F -> F;
  fsqrt : F -> F;
  feqb : F -> F -> bool;          (* ==  *)
  fltb : F -> F -> bool;          (* <   *)
  spacing : F -> F;               (* numpy.spacing *)
  of_nat : nat -> F               (* an int promoted to float64 *)
}.

(** *** IEEE 754 binary64 *)

(** numpy.spacing: the signed distance from [x] to the adjacent float away
    from zero; NaN for the infinities and for NaN; the smallest subnormal at
    zero. *)
Definition spacing_b64 (x : PrimFloat.float) : PrimFloat.float :=
  if PrimFloat.ltb x PrimFloat.zero
  then PrimFloat.sub (PrimFloat.next_down x) x
  else PrimFloat.sub (PrimFloat.next_up x) x.

#[export] Instance NumOps_b64 : NumOps PrimFloat.float := {|
  fadd := PrimFloat.add;
  fsub := PrimFloat.sub;
  fmul := PrimFloat.mul;
  fdiv := PrimFloat.div;
  fabs := PrimFloat.abs;
  fsqrt := PrimFloat.sqrt;
  feqb := PrimFloat.eqb;
  fltb := PrimFloat.ltb;
  spacing := spacing_b64;
  of_nat := fun n => PrimFloat.of_uint63 (Uint63.of_Z (Z.of_nat n))
|}.

(* ------------------------------------------------------------------------- *)
(** ** Interpreter state: the array store and numpy's global generator *)

Definition ref : Type := nat.

Record state (F Rng : Type) : Type := mkState {
  heap : list (list F);     (* the arrays that are mutated or handed around *)
  rng : Rng                 (* numpy.random's global state *)
}.
Arguments mkState {F Rng} heap rng.
Arguments heap {F Rng} s.
Arguments rng {F Rng} s.

Fixpoint list_set {A} (l : list A) (i : nat) (a : A) : list A :=
  match l, i with
  | [], _ => []
  | _ :: t, O => a :: t
  | h :: t, S j => h :: list_set t j a
  end.

(** Loops of the source that collect one value per item. *)
Fixpoint mapM {S A B} (f : A -> M S B) (l : list A) : M S (list B) :=
  match l with
  | [] => ret []
  | a :: t => (b <- f a ;; bs <- mapM f t ;; ret (b :: bs))%py
  end.

(** A Python dict with string keys, in insertion order. *)
Definition dict (V : Type) : Type := list (string * V).

Fixpoint dict_find {V} (d : dict V) (k : string) : option V :=
  match d with
  | [] => None
  | (k', v) :: t => if String.eqb k' k then Some v else dict_find t k
  end.

(** [d[k]] *)
Definition dict_get {S V} (d : dict V) (k : string) : M S V :=
  lift_option (KeyError k) (dict_find d k).

(** A pandas DataFrame of float columns. *)
Record dataframe (F : Type) : Type := mkDF {
  df_len : nat;
  df_cols : dict (list F)
}.
Arguments mkDF {F} df_len df_cols.
Arguments df_len {F} d.
Arguments df_cols {F} d.

(** config.py *)
Record config : Type := mkConfig {
  seed : option Z;
  implementation : string;
  add_dynamic_noise : bool;
  vars_to_perturbate : list string;
  perturbation_strategy : list string;
  load_prev_run : bool;
  restart_run : bool;
  save_ensemble : bool;
  save_ensemble_path : string;
  real_time_restart : bool;
  real_time_restart_path : string;
  output_path : string;
  da_algorithm : string;
  redraw_prior : bool
}.

(** constants.py, as far as the perturbation code reads it. *)
Record constants (F : Type) : Type := mkConstants {
  upper_bounds : dict F;
  lower_bounds : dict F;
  dyn_noise : dict F;
  mean_errors : dict F;
  sd_errors : dict F
}.
Arguments upper_bounds {F} c.
Arguments lower_bounds {F} c.
Arguments dyn_noise {F} c.
Arguments mean_errors {F} c.
Arguments sd_errors {F} c.

(** [s in l] for a list of strings. *)
Definition str_in (s : string) (l : list string) : bool :=
  existsb (String.eqb s) l.

(* ------------------------------------------------------------------------- *)
(** ** modules/met_tools.py *)

Section MetTools.

Context {F : Type} {num : NumOps F}.

(** scipy.special *)
Variables logit expit : F -> F.
(** numpy's elementwise exp and log *)
Variables np_exp np_log : F -> F.

(** numpy.random: the state a seed installs, and one draw from each
    distribution (location, scale) with the state it leaves. *)
Variable Rng : Type.
Variable np_seed : Z -> Rng.
Variable draw_normal : F -> F -> Rng -> F * Rng.
Variable draw_lognormal : F -> F -> Rng -> F * Rng.

Variable cfg : config.
Variable cnt : constants F.

Local Abbreviation st := (state F Rng).
Local Open Scope py_scope.

(** *** The array store *)

Definition alloc (a : list F) : M st ref :=
  fun s => Ok (length (heap s)) (mkState (heap s ++ [a]) (rng s)).

Definition read (r : ref) : M st (list F) :=
  fun s => match nth_error (heap s) r with
           | Some a => Ok a s
           | None => Raise (TypeError "not an array"%string) s
           end.

Definition write (r : ref) (a : list F) : M st unit :=
  fun s => Ok tt (mkState (list_set (heap s) r a) (rng s)).

(** *** numpy helpers *)

(** [(x == b).any()] *)
Definition any_eq (x : list F) (b : F) : bool :=
  existsb (fun v => feqb v b) x.

(** [x[x == b] = f(x[x == b])], for an elementwise [f]. *)
Definition mask_assign (b : F) (f : F -> F) (x : list F) : list F :=
  map (fun v => if feqb v b then f v else v) x.

(** [v + np.abs(np.spacing(v)*100)] and [v - np.abs(np.spacing(v)*100)] *)
Definition nudge_up (v : F) : F :=
  fadd v (fabs (fmul (spacing v) (of_nat 100))).
Definition nudge_down (v : F) : F :=
  fsub v (fabs (fmul (spacing v) (of_nat 100))).

(** [np.random.seed(s)] *)
Definition np_random_seed (s : Z) : M st unit :=
  fun s0 => Ok tt (mkState (heap s0) (np_seed s)).

(** [np.random.<dist>(loc, scale, size)]: [size] draws in sequence. *)
Fixpoint np_random (draw : F -> F -> Rng -> F * Rng)
         (loc scale : F) (size : nat) : M st (list F) :=
  match size with
  | O => ret []
  | S n => fun s =>
      let (v, g) := draw loc scale (rng s) in
      (vs <- np_random draw loc scale n ;; ret (v :: vs))
        (mkState (heap s) g)
  end.

(** [np.repeat(a, n)] into a new array. *)
Definition np_repeat (a : list F) (n : nat) : M st ref :=
  alloc (flat_map (fun v => repeat v n) a).

(** *** glogit (lines 108-119) and gexpit (lines 122-134) *)

(** The guard both functions open with (lines 112-115 and 125-130): entries
    equal to the lower bound are moved up, then entries equal to the upper
    bound are moved down, in the caller's array. *)
Definition nudge_bounds (x : ref) (bPmin bPmax : F) : M st unit :=
  xv <- read x ;;
  (if any_eq xv bPmin
   then write x (mask_assign bPmin nudge_up xv) else ret tt) ;;;
  xv <- read x ;;
  (if any_eq xv bPmax
   then write x (mask_assign bPmax nudge_down xv) else ret tt).

(** [(x-bPmin)/(bPmax-bPmin)] and [(bPmax-bPmin)*xs+bPmin], per entry. *)
Definition scale01 (bPmin bPmax v : F) : F :=
  fdiv (fsub v bPmin) (fsub bPmax bPmin).
Definition unscale01 (bPmin bPmax v : F) : F :=
  fadd (fmul (fsub bPmax bPmin) v) bPmin.

Definition glogit (x : ref) (bPmin bPmax : F) : M st ref :=
  nudge_bounds x bPmin bPmax ;;;
  xv <- read x ;;
  xs <- alloc (map (scale01 bPmin bPmax) xv) ;;
  xsv <- read xs ;;
  alloc (map logit xsv).

Definition gexpit (xt : ref) (bPmin bPmax : F) : M st ref :=
  nudge_bounds xt bPmin bPmax ;;;
  xv <- read xt ;;
  xs <- alloc (map expit xv) ;;
  xsv <- read xs ;;
  alloc (map (unscale01 bPmin bPmax) xsv).

(** What the guard leaves in an entry: moved up when it sat on the lower
    bound, then moved down when it sits on the upper one. *)
Definition nudged (bPmin bPmax v : F) : F :=
  let v' := if feqb v bPmin then nudge_up v else v in
  if feqb v' bPmax then nudge_down v' else v'.

(** *** create_noise (lines 137-162) *)

(** [if (cfg.seed is not None): np.random.seed(cfg.seed)] *)
Definition reseed : M st unit :=
  match seed cfg with
  | Some s => np_random_seed s
  | None => ret tt
  end.

(** The generator state the draw then starts from. *)
Definition seeded (s : st) : Rng :=
  match seed cfg with Some k => np_seed k | None => rng s end.

(** The strategy dispatch shared, line for line, by [create_noise] and the
    loop body of [create_noise_from_posterior]. *)
Definition draw_by_strategy (perturbation_strategy : string)
           (n_steps : nat) (mean std_dev : F) (var : string) : M st ref :=
  if String.eqb perturbation_strategy "normal" then
    noise <- np_random draw_normal mean std_dev 1 ;;
    np_repeat noise n_steps
  else if String.eqb perturbation_strategy "lognormal" then
    noise <- np_random draw_lognormal mean std_dev 1 ;;
    np_repeat noise n_steps
  else if str_in perturbation_strategy
                 ["logitnormal_mult"; "logitnormal_adi"]%string then
    bPmax <- dict_get (upper_bounds cnt) var ;;
    bPmin <- dict_get (lower_bounds cnt) var ;;
    norm_noise <- np_random draw_normal mean std_dev 1 ;;
    norm_noise <- np_repeat norm_noise n_steps ;;
    gexpit norm_noise bPmin bPmax
  else
    raise (Exception "choose the shape of the perturbation parameters"%string).

Definition create_noise (perturbation_strategy : string) (n_steps : nat)
           (mean std_dev : F) (var : string) : M st ref :=
  reseed ;;;
  draw_by_strategy perturbation_strategy n_steps mean std_dev var.

(** *** create_noise_from_posterior (lines 165-237) *)

(** Python rebinds [post_mean_vals] and [counts] to values of another type
    in the dynamic-noise branch: an array becomes a scalar, a list of counts
    becomes an int. *)
Inductive means_t : Type :=
| MeanScalar (m : F)
| MeanArr (l : list F).

Inductive counts_t : Type :=
| CountsInt (n : nat)
| CountsArr (l : list nat).

(** [len(counts)] *)
Definition len_counts (c : counts_t) : M st nat :=
  match c with
  | CountsInt _ => raise (TypeError "object of type 'int' has no len()"%string)
  | CountsArr l => ret (length l)
  end.

(** [counts[i]] *)
Definition counts_item (c : counts_t) (i : nat) : M st nat :=
  match c with
  | CountsInt _ => raise (TypeError "'int' object is not subscriptable"%string)
  | CountsArr l => lift_option IndexError (nth_error l i)
  end.

(** [post_mean_vals.size] and [post_mean_vals[n]] *)
Definition means_size (m : means_t) : nat :=
  match m with MeanScalar _ => 1 | MeanArr l => length l end.

Definition means_item (m : means_t) (n : nat) : M st F :=
  match m with
  | MeanScalar _ => raise IndexError
  | MeanArr l => lift_option IndexError (nth_error l n)
  end.

(** [np.repeat(a, counts)]: each element its own number of times. *)
Definition np_repeat_each (a : list nat) (c : counts_t) : M st (list nat) :=
  match c with
  | CountsInt k => ret (flat_map (fun v => repeat v k) a)
  | CountsArr l =>
      if Nat.eqb (length a) (length l)
      then ret (concat (map (fun p => repeat (fst p) (snd p)) (combine a l)))
      else raise ValueError
  end.

(** [np.unique]: sort, then keep each element that differs from its
    predecessor. *)
Fixpoint insert_sorted {A} (lt : A -> A -> bool) (x : A) (l : list A)
  : list A :=
  match l with
  | [] => [x]
  | y :: t => if lt y x then y :: insert_sorted lt x t else x :: y :: t
  end.

Definition np_sort {A} (lt : A -> A -> bool) (l : list A) : list A :=
  fold_right (insert_sorted lt) [] l.

Fixpoint keep_changes {A} (eq : A -> A -> bool) (prev : A) (l : list A)
  : list A :=
  match l with
  | [] => []
  | x :: t => if eq x prev then keep_changes eq x t
              else x :: keep_changes eq x t
  end.

Definition np_unique {A} (lt eq : A -> A -> bool) (l : list A) : list A :=
  match np_sort lt l with
  | [] => []
  | x :: t => x :: keep_changes eq x t
  end.

(** [np.sum], [np.mean], [np.sum(a == value)] *)
Definition np_sum (l : list F) : F := fold_left fadd l (of_nat 0).
Definition np_mean (l : list F) : F := fdiv (np_sum l) (of_nat (length l)).
Definition count_eq {A} (eq : A -> A -> bool) (l : list A) (v : A) : nat :=
  length (filter (fun x => eq x v) l).

(** [a[mask]] for a boolean mask, which must be as long as [a]. *)
Fixpoint mask_select (a : list F) (mask : list bool) : M st (list F) :=
  match a, mask with
  | [], [] => ret []
  | x :: a', b :: m' =>
      r <- mask_select a' m' ;; ret (if b then x :: r else r)
  | _, _ => raise IndexError
  end.

(** [posteriors[name].to_numpy()] *)
Definition df_column (d : option (dataframe F)) (name : string)
  : M st (list F) :=
  match d with
  | None => raise (TypeError "'NoneType' object is not subscriptable"%string)
  | Some d => dict_get (df_cols d) name
  end.

(** [len(posteriors)] *)
Definition len_df (d : option (dataframe F)) : M st nat :=
  match d with
  | None => raise (TypeError "object of type 'NoneType' has no len()"%string)
  | Some d => ret (df_len d)
  end.

(** [np.concatenate] of the arrays behind a list of references. *)
Definition np_concatenate (rs : list ref) : M st ref :=
  match rs with
  | [] => raise ValueError
  | _ => arrs <- mapM read rs ;; alloc (concat arrs)
  end.

(** The combined standard deviation of one window (lines 199-202). *)
Definition combined_std (post_std_dev : list F) (idsDAWS : list nat)
           (index : nat) : M st F :=
  let k := count_eq Nat.eqb idsDAWS index in
  sel <- mask_select post_std_dev (map (fun i => Nat.eqb i index) idsDAWS) ;;
  ret (fsqrt (fdiv (np_sum (map (fun v => fmul v v) sel)) (of_nat k))).

(** One pass of the loop over the windows (lines 206-235). *)
Definition posterior_step (post_mean_vals : means_t)
           (post_post_std_dev : list F) (counts : counts_t)
           (perturbation_strategy var_tmp : string) (n : nat) : M st ref :=
  mean <- means_item post_mean_vals n ;;
  std_dev <- lift_option IndexError (nth_error post_post_std_dev n) ;;
  n_steps <- counts_item counts 0 ;;
  reseed ;;;
  draw_by_strategy perturbation_strategy n_steps mean std_dev var_tmp.

Definition create_noise_from_posterior (posteriors : option (dataframe F))
           (perturbation_strategy var_tmp : string) : M st ref :=
  reseed ;;;
  post_mean <- df_column posteriors (var_tmp ++ "_noise_mean")%string ;;
  post_std_dev <- df_column posteriors (var_tmp ++ "_noise_sd")%string ;;
  let post_mean_vals := np_unique fltb feqb post_mean in
  n_rows <- len_df posteriors ;;
  let '(post_mean_vals, counts) :=
    if Nat.eqb n_rows (length post_mean_vals)
    then (MeanScalar (np_mean post_mean_vals), CountsInt n_rows)
    else (MeanArr post_mean_vals,
          CountsArr (map (count_eq feqb post_mean) post_mean_vals)) in
  n_counts <- len_counts counts ;;
  idsDAWS <- np_repeat_each (seq 0 n_counts) counts ;;
  let unique_indices := np_unique Nat.ltb Nat.eqb idsDAWS in
  post_post_std_dev <-
    mapM (combined_std post_std_dev idsDAWS) unique_indices ;;
  complet_noise <-
    mapM (posterior_step post_mean_vals post_post_std_dev counts
                         perturbation_strategy var_tmp)
         (seq 0 (means_size post_mean_vals)) ;;
  np_concatenate complet_noise.

(** *** add_process_noise (lines 240-279) *)

(** An elementwise binary operation on two 1-d arrays under numpy's
    broadcasting: equal lengths, or one operand of length one. *)
Definition broadcast2 (op : F -> F -> F) (a b : list F) : M st (list F) :=
  if Nat.eqb (length a) (length b)
  then ret (map (fun p => op (fst p) (snd p)) (combine a b))
  else match a, b with
       | [x], _ => ret (map (op x) b)
       | _, [y] => ret (map (fun v => op v y) a)
       | _, _ => raise ValueError
       end.

(** [np.cumsum] *)
Fixpoint cumsum_from (acc : F) (l : list F) : list F :=
  match l with
  | [] => []
  | x :: t => fadd acc x :: cumsum_from (fadd acc x) t
  end.
Definition np_cumsum (l : list F) : list F :=
  match l with
  | [] => []
  | x :: t => x :: cumsum_from x t
  end.

Definition add_process_noise (noise_coef : ref) (var strategy : string)
  : M st ref :=
  if String.eqb (implementation cfg) "Spatial_propagation" then
    ret noise_coef
  else if add_dynamic_noise cfg then
    tmp_proc_noise <- dict_get (dyn_noise cnt) var ;;
    coef <- read noise_coef ;;
    add_vals <- np_random draw_normal (of_nat 0) tmp_proc_noise
                          (length coef) ;;
    if String.eqb strategy "normal" then
      r <- broadcast2 fadd coef (np_cumsum add_vals) ;;
      alloc r
    else if String.eqb strategy "lognormal" then
      r <- broadcast2 fadd (map np_log coef) (np_cumsum add_vals) ;;
      alloc (map np_exp r)
    else if str_in strategy ["logitnormal_mult"; "logitnormal_adi"]%string
    then
      lo <- dict_get (lower_bounds cnt) var ;;
      hi <- dict_get (upper_bounds cnt) var ;;
      xt <- glogit noise_coef lo hi ;;
      xtv <- read xt ;;
      r <- broadcast2 fadd xtv (np_cumsum add_vals) ;;
      noise_coef <- alloc r ;;
      lo <- dict_get (lower_bounds cnt) var ;;
      hi <- dict_get (upper_bounds cnt) var ;;
      gexpit noise_coef lo hi
    else
      raise (Exception "Bad perturbation strategy"%string)
  else
    ret noise_coef.

(** *** perturb_parameters (lines 282-337) *)

(** modules/spatialMuSA.read_parameter, an external reader. *)
Variable spM_read_parameter :
  option string -> option Z -> option Z -> string -> option Z -> M st (list F).

(** [dict.fromkeys(keys, None)] and [d[k] = v] *)
Fixpoint dict_set {V} (d : dict V) (k : string) (v : V) : dict V :=
  match d with
  | [] => [(k, v)]
  | (k', v') :: t =>
      if String.eqb k' k then (k', v) :: t else (k', v') :: dict_set t k v
  end.

Definition dict_fromkeys {V} (keys : list string) (v : V) : dict V :=
  fold_left (fun d k => dict_set d k v) keys [].

(** [forcing_copy[var] = a]: the column must have as many rows as the
    frame. *)
Definition df_set_column (d : dataframe F) (name : string) (a : list F)
  : M st (dataframe F) :=
  if Nat.eqb (length a) (df_len d)
  then ret (mkDF (df_len d) (dict_set (df_cols d) name a))
  else raise ValueError.

(** [len(noise)] and [noise[idv]], for the [noise] keyword argument. *)
Definition len_noise (noise : option (list (list F))) : M st nat :=
  match noise with
  | None => raise (TypeError "object of type 'NoneType' has no len()"%string)
  | Some l => ret (length l)
  end.

Definition noise_item (noise : option (list (list F))) (i : nat)
  : M st (list F) :=
  match noise with
  | None => raise (TypeError "'NoneType' object is not subscriptable"%string)
  | Some l => lift_option IndexError (nth_error l i)
  end.

Definition length_mismatch_msg : string :=
  "Length of vars_to_perturbate different to
                        perturbation_strategy".

(** The body of the loop over the perturbed variables (lines 306-335). *)
Definition perturb_step (lat_idx lon_idx : option Z)
           (posteriors : option (dataframe F)) (member : option Z)
           (noise : option (list (list F))) (update readGSC : bool)
           (GSC_filename : option string) (n_steps : nat)
           (acc : dataframe F * dict (option ref)) (idv : nat)
  : M st (dataframe F * dict (option ref)) :=
  let (forcing_copy, noise_storage) := acc in
  var_tmp <- lift_option IndexError (nth_error (vars_to_perturbate cfg) idv) ;;
  strategy_tmp <-
    lift_option IndexError (nth_error (perturbation_strategy cfg) idv) ;;
  noise_coef <-
    (if readGSC then
       parameter <- spM_read_parameter GSC_filename lat_idx lon_idx
                                       var_tmp member ;;
       np_repeat parameter n_steps
     else if update then
       noise_coef <- noise_item noise idv ;;
       np_repeat noise_coef n_steps
     else if load_prev_run cfg then
       create_noise_from_posterior posteriors strategy_tmp var_tmp
     else
       mean <- dict_get (mean_errors cnt) var_tmp ;;
       sd <- dict_get (sd_errors cnt) var_tmp ;;
       create_noise strategy_tmp n_steps mean sd var_tmp) ;;
  noise_coef <- add_process_noise noise_coef var_tmp strategy_tmp ;;
  coef <- read noise_coef ;;
  column <- dict_get (df_cols forcing_copy) var_tmp ;;
  perturbed <-
    (if str_in strategy_tmp ["lognormal"; "logitnormal_mult"]%string
     then broadcast2 fmul column coef
     else broadcast2 fadd column coef) ;;
  forcing_copy <- df_set_column forcing_copy var_tmp perturbed ;;
  ret (forcing_copy, dict_set noise_storage var_tmp (Some noise_coef)).

Fixpoint for_each {A X} (body : A -> X -> M st A) (acc : A) (l : list X)
  : M st A :=
  match l with
  | [] => ret acc
  | x :: t => acc' <- body acc x ;; for_each body acc' t
  end.

Definition perturb_parameters (main_forcing : dataframe F)
           (lat_idx lon_idx : option Z)
           (posteriors : option (dataframe F)) (member : option Z)
           (noise : option (list (list F))) (update readGSC : bool)
           (GSC_filename : option string)
  : M st (dataframe F * dict (option ref)) :=
  let forcing_copy := main_forcing in
  let n_steps := df_len forcing_copy in
  let noise_storage := dict_fromkeys (vars_to_perturbate cfg) None in
  if negb (Nat.eqb (length (vars_to_perturbate cfg))
                   (length (perturbation_strategy cfg)))
  then raise (Exception length_mismatch_msg)
  else
    (if update
     then n <- len_noise noise ;;
          if negb (Nat.eqb (length (vars_to_perturbate cfg)) n)
          then raise (Exception "Something wrong with kalman noise"%string)
          else ret tt
     else ret tt) ;;;
    for_each (perturb_step lat_idx lon_idx posteriors member noise update
                           readGSC GSC_filename n_steps)
             (forcing_copy, noise_storage)
             (seq 0 (length (vars_to_perturbate cfg))).

End MetTools.

(* ------------------------------------------------------------------------- *)
(** ** modules/met_tools.py: precipitation phase and redrawing *)

Section MetToolsRest.

Context {F : Type} {num : NumOps F}.
Variables expit np_exp : F -> F.
Variable Rng : Type.
(** One draw of [np.random.randn]. *)
Variable draw_randn : Rng -> F * Rng.
Variable cfg : config.
Variable cnt : constants F.
(** [cnt.KELVING_CONVER] *)
Variable KELVING_CONVER : F.

Local Abbreviation st := (state F Rng).
Local Open Scope py_scope.

(** The float64 literal [n/d]: the quotient of two small ints is correctly
    rounded, so it is the double the decimal literal denotes. *)
Definition dec (n d : nat) : F := fdiv (of_nat n) (of_nat d).

(** [a[a > c] = c] and [a[a < c] = c] *)
Definition clip_above (c : F) (a : list F) : list F :=
  map (fun v => if fltb c v then c else v) a.
Definition clip_below (c : F) (a : list F) : list F :=
  map (fun v => if fltb v c then c else v) a.

(** *** pp_temp_thld_log (lines 66-80) *)

Definition pp_temp_thld_log (ta2 precc : list F)
  : M st (list F * list F) :=
  let m_prec := dec 3051 10000 in
  let thres_prec := dec 273689 1000 in
  let Tp := map (fun t => fdiv (fsub t thres_prec) m_prec) ta2 in
  let p_multi :=
    map (fun e => fdiv e (fadd (of_nat 1) e)) (map np_exp Tp) in
  liquid_prec <- broadcast2 fmul p_multi precc ;;
  solid_prec <- broadcast2 fsub precc liquid_prec ;;
  let solid_prec := clip_below (of_nat 0) solid_prec in
  ret (liquid_prec, solid_prec).

(** *** pres_from_dem (lines 83-89) *)

Definition pres_from_dem (topo : list F) : list F :=
  let one_atmos := of_nat 101300 in
  let scale_ht := of_nat 8000 in
  map (fun z => fmul one_atmos (np_exp (fsub (of_nat 0) (fdiv z scale_ht))))
      topo.

(** *** linear_liston (lines 92-105) *)

Definition linear_liston (ta2 precc : list F) : M st (list F * list F) :=
  let temp_C := map (fun t => fsub t KELVING_CONVER) ta2 in
  let Tair_C_center := dec 11 10 in
  let slope := fsub (of_nat 0) (dec 3 10) in
  let b := fsub (dec 1 2) (fmul slope Tair_C_center) in
  let snowfall_frac := map (fun t => fadd (fmul slope t) b) temp_C in
  let snowfall_frac := clip_above (of_nat 1) snowfall_frac in
  let snowfall_frac := clip_below (of_nat 0) snowfall_frac in
  solid_prec <- broadcast2 fmul precc snowfall_frac ;;
  liquid_prec <-
    broadcast2 fmul precc (map (fun f => fsub (of_nat 1) f) snowfall_frac) ;;
  ret (liquid_prec, solid_prec).

(** *** redraw (lines 383-411) *)

(** [s == l] for a str [s] and a list [l]: a str never equals a list. *)
Definition str_eq_list (s : string) (l : list string) : bool := false.

(** [func_shape[i, j]] *)
Definition item2 (func_shape : list (list F)) (i j : nat) : M st F :=
  row <- lift_option IndexError (nth_error func_shape i) ;;
  lift_option IndexError (nth_error row j).

(** [storage[count] = new_pert], for an array [new_pert] of one entry. *)
Definition set_item (storage : list F) (count : nat) (new_pert : list F)
  : M st (list F) :=
  match new_pert with
  | [v] => if Nat.ltb count (length storage)
           then ret (list_set storage count v)
           else raise IndexError
  | _ => raise ValueError
  end.

(** One pass of the loop (lines 393-409). *)
Definition redraw_step (func_shape : list (list F)) (storage : list F)
           (item : nat * string) : M st (list F) :=
  let (count, var) := item in
  mu <- item2 func_shape count 0 ;;
  sigma <- item2 func_shape count 1 ;;
  z <- (fun s => let (v, g) := draw_randn (rng s) in
                 Ok [v] (mkState (heap s) g)) ;;
  let new_pert := map (fun v => fadd mu (fmul sigma v)) z in
  let new_pert :=
    if String.eqb var "lognormal" then map np_exp new_pert else new_pert in
  strategy <-
    lift_option IndexError (nth_error (perturbation_strategy cfg) count) ;;
  new_pert <-
    (if str_eq_list strategy ["logitnormal_mult"; "logitnormal_adi"]%string
     then
       varindict <-
         lift_option IndexError (nth_error (vars_to_perturbate cfg) count) ;;
       hi <- dict_get (upper_bounds cnt) varindict ;;
       lo <- dict_get (lower_bounds cnt) varindict ;;
       r <- alloc new_pert ;;
       out <- gexpit expit r hi lo ;;
       read out
     else ret new_pert) ;;
  set_item storage count new_pert.

Definition redraw (func_shape : list (list F)) : M st (list F) :=
  let perturbation_strategy := perturbation_strategy cfg in
  let storage := repeat (of_nat 1) (length perturbation_strategy) in
  for_each (redraw_step func_shape) storage
           (combine (seq 0 (length perturbation_strategy))
                    perturbation_strategy).

End MetToolsRest.

(* ------------------------------------------------------------------------- *)
(** ** modules/cell_assim.py *)

Module CellAssim.

(** [str(i)] for an int *)
Definition str (i : Z) : string :=
  DecimalString.NilZero.string_of_int (Z.to_int i).

(** [os.path.join(a, b)] on POSIX, for the two-argument calls of the
    source. *)
Fixpoint ends_with_slash (a : string) : bool :=
  match a with
  | EmptyString => false
  | String c EmptyString => Ascii.eqb c "/"%char
  | String _ t => ends_with_slash t
  end.

Definition os_path_join (a b : string) : string :=
  match b with
  | String "/"%char _ => b
  | _ => match a with
         | EmptyString => b
         | _ => if ends_with_slash a then (a ++ b)%string
                else (a ++ "/" ++ b)%string
         end
  end.

(** The output file of a cell (lines 43-49). *)
Definition cell_filename (cfg : config) (lat_idx lon_idx : Z) : string :=
  let filename :=
    if load_prev_run cfg
    then ("Reconstructed_cell_" ++ str lat_idx ++ "_" ++ str lon_idx
          ++ ".pkl.blp")%string
    else ("cell_" ++ str lat_idx ++ "_" ++ str lon_idx ++ ".pkl.blp")%string
  in os_path_join (output_path cfg) filename.

Section Driver.

(** The objects of the collaborators (observations, forcing tables,
    result frames, the ensemble) are opaque. *)
Variable PyObj : Type.

(** What the driver reads off them without calling anyone. *)
Variable isinstance_str : PyObj -> bool.       (* isinstance(o, str) *)
Variable isnan_all : PyObj -> bool.            (* np.isnan(o).all() *)
Variable slice : PyObj -> nat -> nat -> PyObj. (* o[a:b] *)
Variable copy : PyObj -> PyObj.                (* o.copy() *)
Variable getitem : PyObj -> string -> PyObj.   (* o[key] *)

(** The dict [ifn.simulation_steps] returns. *)
Record time_dict : Type := mkTimeDict {
  Assimilaiton_steps : list nat;
  del_t : PyObj
}.

(** What is written to disk: a dict of frames, or the ensemble. *)
Inductive payload : Type :=
| Frames (cell_data : PyObj)
| EnsembleObj (e : PyObj).

(** Every call that leaves the function: the file system, the observation
    provider and I/O helpers ([ifn]), the model adapter ([model]), the
    filter ([flt]), the ensemble's methods and [pdcast]. *)
Inductive event : Type -> Type :=
| os_path_exists (p : string) : event bool
| ifn_get_dates_obs : event PyObj
| ifn_obs_array (dates_obs : PyObj) (lat_idx lon_idx : Z)
  : event (PyObj * PyObj)
| ifn_forcing_check (main_forcing : PyObj) : event bool
| ifn_simulation_steps (observations dates_obs : PyObj) : event time_dict
| ifn_run_model_openloop (lat_idx lon_idx : Z) (main_forcing : PyObj)
                         (filename : string) : event unit
| ifn_io_read (name : string) : event (option PyObj)
| ifn_io_write (name : string) (obj : payload) : event unit
| ifn_downcast_output (cell_data : dict PyObj) : event PyObj
| print (msg : string) : event unit
| model_forcing_table (lat_idx lon_idx : Z) : event PyObj
| model_init_result (del_t : PyObj) (DA : bool) : event PyObj
| model_store_sim (mean sd Ensemble : PyObj) (t : time_dict) (step : nat)
                  (save_prior MCMC : bool) : event unit
| model_storeDA (DA_Results step_results observations_sbst error_sbst
                 : PyObj) (t : time_dict) (step : nat) : event unit
| model_storeOL (OL_Sim Ensemble observations_sbst : PyObj)
                (t : time_dict) (step : nat) : event unit
| SnowEnsemble (lat_idx lon_idx : Z) : event PyObj
| set_real_time_restart (Ensemble : PyObj) : event unit
| Ensemble_create (Ensemble forcing_sbst observations_sbst error_sbst
                   : PyObj) (step : nat) : event unit
| flt_implement_assimilation (Ensemble : PyObj) (step : nat) : event PyObj
| Ensemble_posterior_shape (Ensemble : PyObj) : event unit
| Ensemble_resample (Ensemble resampled_particles : PyObj) : event unit
| Ensemble_season_rejuvenation (Ensemble : PyObj) : event unit
| Ensemble_save_space (Ensemble : PyObj) : event unit
| pdc_downcast (frame : PyObj) : event PyObj.

(** A program is a tree of calls. *)
Inductive prog (R : Type) : Type :=
| Done (r : R)
| Call {X : Type} (e : event X) (k : X -> prog R).
Arguments Done {R} r.
Arguments Call {R X} e k.

Fixpoint pbind {R Q} (p : prog R) (f : R -> prog Q) : prog Q :=
  match p with
  | Done r => f r
  | Call e k => Call e (fun x => pbind (k x) f)
  end.

Definition call {X} (e : event X) : prog X := Call e Done.

(** How a call of the function ends. *)
Inductive result : Type :=
| ReturnNone
| Raises (e : exc).

Notation "x <- p ;; q" := (pbind p (fun x => q))
  (at level 61, p at next level, right associativity).
Notation "' pat <- p ;; q" := (pbind p (fun x => let 'pat := x in q))
  (at level 61, pat pattern, p at next level, right associativity).
Notation "p ;;; q" := (pbind p (fun _ => q))
  (at level 61, right associativity).

Definition when (b : bool) (p : prog unit) : prog unit :=
  if b then p else Done tt.

Section Cell.

Variable cfg : config.
Variables lat_idx lon_idx : Z.

Definition is_mcmc : bool :=
  str_in (da_algorithm cfg) ["IES-MCMC"; "IES-MCMC_AI"]%string.

(** The frames created before the loop (lines 77-88). *)
Record frames : Type := mkFrames {
  DA_Results : PyObj; updated_Sim : PyObj; sd_Sim : PyObj;
  OL_Sim : PyObj; prior_mean : PyObj; prior_sd : PyObj;
  mcmc_Sim : option PyObj; mcmcSD_Sim : option PyObj
}.

(** The loop over the assimilation steps (lines 102-154). [last] is the
    pair ([step], [observations_sbst]) the previous pass left bound;
    [rest] is the code after the loop. *)
Fixpoint assimilation_loop (filename : string) (observations errors
           main_forcing Ensemble : PyObj) (t : time_dict) (fr : frames)
           (steps : list nat) (last : option (nat * PyObj))
           (rest : option (nat * PyObj) -> prog result) : prog result :=
  match steps with
  | [] => rest last
  | step :: steps' =>
      let a := nth step (Assimilaiton_steps t) 0 in
      let b := nth (step + 1) (Assimilaiton_steps t) 0 in
      let observations_sbst := slice observations a b in
      let error_sbst := slice errors a b in
      let forcing_sbst := copy (slice main_forcing a b) in
      call (Ensemble_create Ensemble forcing_sbst observations_sbst
                            error_sbst step) ;;;
      call (model_store_sim (prior_mean fr) (prior_sd fr) Ensemble t
                            step true false) ;;;
      if load_prev_run cfg then
        out <- call (ifn_downcast_output
                       [("Ensemble_mean"%string, prior_mean fr);
                        ("Ensemble_sd"%string, prior_sd fr)]) ;;
        call (ifn_io_write filename (Frames out)) ;;;
        Done ReturnNone
      else
        step_results <- call (flt_implement_assimilation Ensemble step) ;;
        call (model_storeDA (DA_Results fr) step_results
                            observations_sbst error_sbst t step) ;;;
        call (model_store_sim (updated_Sim fr) (sd_Sim fr) Ensemble t
                              step false false) ;;;
        match is_mcmc, mcmc_Sim fr, mcmcSD_Sim fr with
        | true, Some m, Some sd =>
            call (model_store_sim m sd Ensemble t step false true)
        | _, _, _ => Done tt
        end ;;;
        when (redraw_prior cfg)
             (call (Ensemble_posterior_shape Ensemble)) ;;;
        when (str_in (da_algorithm cfg) ["PF"; "PBS"]%string)
             (call (Ensemble_resample Ensemble
                      (getitem step_results "resampled_particles"))) ;;;
        when (str_in (da_algorithm cfg)
                     ["PBS"; "ProPBS"; "AdaPBS"; "ES"; "IES"; "PIES";
                      "IES-MCMC"]%string)
             (call (Ensemble_season_rejuvenation Ensemble)) ;;;
        assimilation_loop filename observations errors main_forcing
                          Ensemble t fr steps'
                          (Some (step, observations_sbst)) rest
  end.

(** After the loop (lines 156-207). *)
Definition write_results (filename : string)
           (name_ensemble name_restart : option string)
           (Ensemble : PyObj) (t : time_dict) (fr : frames)
           (last : option (nat * PyObj)) : prog result :=
  match last with
  | None => Done (Raises (NameError "observations_sbst"))
  | Some (step, observations_sbst) =>
      call (model_storeOL (OL_Sim fr) Ensemble observations_sbst t
                          step) ;;;
      DA_Results' <- call (pdc_downcast (DA_Results fr)) ;;
      OL_Sim' <- call (pdc_downcast (OL_Sim fr)) ;;
      updated_Sim' <- call (pdc_downcast (updated_Sim fr)) ;;
      sd_Sim' <- call (pdc_downcast (sd_Sim fr)) ;;
      prior_mean' <- call (pdc_downcast (prior_mean fr)) ;;
      prior_sd' <- call (pdc_downcast (prior_sd fr)) ;;
      let cell_data :=
        [("DA_Results"%string, DA_Results'); ("OL_Sim"%string, OL_Sim');
         ("updated_Sim"%string, updated_Sim');
         ("sd_Sim"%string, sd_Sim');
         ("prior_mean"%string, prior_mean');
         ("prior_sd"%string, prior_sd')] in
      cell_data <-
        match is_mcmc, mcmc_Sim fr, mcmcSD_Sim fr with
        | true, Some m, Some sd =>
            m' <- call (pdc_downcast m) ;;
            sd' <- call (pdc_downcast sd) ;;
            Done (cell_data ++ [("mcmc_Sim"%string, m');
                                ("mcmcSD_Sim"%string, sd')])
        | _, _, _ => Done cell_data
        end ;;
      out <- call (ifn_downcast_output cell_data) ;;
      call (ifn_io_write filename (Frames out)) ;;;
      match name_ensemble with
      | Some name => call (ifn_io_write name (EnsembleObj Ensemble))
      | None => Done tt
      end ;;;
      match name_restart with
      | Some name =>
          call (Ensemble_save_space Ensemble) ;;;
          call (ifn_io_write name (EnsembleObj Ensemble))
      | None => Done tt
      end ;;;
      Done ReturnNone
  end.

Definition cell_assimilation : prog result :=
  let name_ensemble :=
    if save_ensemble cfg
    then Some (os_path_join (save_ensemble_path cfg)
                 ("ensbl_" ++ str lat_idx ++ "_" ++ str lon_idx
                  ++ ".pkl.blp")%string)
    else None in
  let name_restart :=
    if real_time_restart cfg
    then Some (os_path_join (real_time_restart_path cfg)
                 ("init_" ++ str lat_idx ++ "_" ++ str lon_idx
                  ++ ".pkl.blp")%string)
    else None in
  let filename := cell_filename cfg lat_idx lon_idx in
  exists_ <- (if restart_run cfg then call (os_path_exists filename)
              else Done false) ;;
  if exists_ then Done ReturnNone else
  dates_obs <- call ifn_get_dates_obs ;;
  '(observations, errors) <-
    call (ifn_obs_array dates_obs lat_idx lon_idx) ;;
  if isinstance_str observations then Done ReturnNone else
  main_forcing <- call (model_forcing_table lat_idx lon_idx) ;;
  na <- call (ifn_forcing_check main_forcing) ;;
  if na then
    call (print ("NA's found in: " ++ str lat_idx ++ "," ++ str lon_idx)
                %string) ;;;
    Done ReturnNone
  else
  t <- call (ifn_simulation_steps observations dates_obs) ;;
  if (isnan_all observations
      || String.eqb (da_algorithm cfg) "deterministic_OL")
     && negb (load_prev_run cfg)
  then
    call (ifn_run_model_openloop lat_idx lon_idx main_forcing
                                 filename) ;;;
    Done ReturnNone
  else
  DA_Results <- call (model_init_result (del_t t) true) ;;
  updated_Sim <- call (model_init_result (del_t t) false) ;;
  sd_Sim <- call (model_init_result (del_t t) false) ;;
  OL_Sim <- call (model_init_result (del_t t) false) ;;
  prior_mean <- call (model_init_result (del_t t) false) ;;
  prior_sd <- call (model_init_result (del_t t) false) ;;
  '(mcmc_Sim, mcmcSD_Sim) <-
    (if is_mcmc then
       m <- call (model_init_result (del_t t) false) ;;
       sd <- call (model_init_result (del_t t) false) ;;
       Done (Some m, Some sd)
     else Done (None, None)) ;;
  let fr := mkFrames DA_Results updated_Sim sd_Sim OL_Sim prior_mean
                     prior_sd mcmc_Sim mcmcSD_Sim in
  Ensemble <-
    match real_time_restart cfg && negb (load_prev_run cfg),
          name_restart with
    | true, Some name =>
        found <- call (ifn_io_read name) ;;
        match found with
        | Some Ensemble =>
            call (set_real_time_restart Ensemble) ;;; Done Ensemble
        | None => call (SnowEnsemble lat_idx lon_idx)
        end
    | _, _ => call (SnowEnsemble lat_idx lon_idx)
    end ;;
  assimilation_loop filename observations errors main_forcing Ensemble
    t fr (seq 0 (length (Assimilaiton_steps t) - 1)) None
    (write_results filename name_ensemble name_restart Ensemble t fr).

End Cell.

(** *** Running a program against the outside world *)

Variable World : Type.

(** The collaborators: each call answers and may change the world. *)
Definition handler : Type := forall X, event X -> World -> X * World.

(** A call, without its answer. *)
Inductive called : Type :=
| Called {X : Type} (e : event X).

(** The result, the world left behind and the calls made, in order. *)
Fixpoint run {R} (h : handler) (p : prog R) (w : World)
  : R * World * list called :=
  match p with
  | Done r => (r, w, [])
  | Call e k =>
      let (x, w') := h _ e w in
      let '(r, w'', calls) := run h (k x) w' in
      (r, w'', Called e :: calls)
  end.

End Driver.

End CellAssim.

(* ------------------------------------------------------------------------- *)
(** ** Vocabulary of the properties *)

(** The specification's ConfigurationError: the source signals a
    misconfigured run with a bare [Exception]. *)
Definition ConfigurationError (e : exc) : Prop := exists msg, e = Exception msg.

(** The strategies [create_noise] knows. *)
Definition strategies : list string :=
  ["normal"; "lognormal"; "logitnormal_mult"; "logitnormal_adi"]%string.

(** What a caller sees of a call that returns an array: the exception, or the
    contents of the array returned. *)
Definition returned_array {F Rng} (o : outcome (state F Rng) ref)
  : exc + option (list F) :=
  match o with
  | Ok r s => inr (nth_error (heap s) r)
  | Raise e _ => inl e
  end.

(** The array behind [r] in the store an outcome leaves. *)
Definition array_after {F Rng A} (o : outcome (state F Rng) A) (r : ref)
  : option (list F) :=
  nth_error (heap (final_state o)) r.

(** A draw given as the value drawn and the generator state it leaves. *)
Definition draw_pair {F Rng} (value : F -> F -> Rng -> F)
           (next : F -> F -> Rng -> Rng) (loc scale : F) (g : Rng) : F * Rng :=
  (value loc scale g, next loc scale g).



(** [abs(a - b) < tol] *)
Definition closer_than {F} {num : NumOps F} (tol a b : F) : bool :=
  fltb (fabs (fsub a b)) tol.

(** An infinity or NaN of binary64. *)
Definition inf_or_nan (x : PrimFloat.float) : bool :=
  match FloatOps.Prim2SF x with
  | SpecFloat.S754_infinity _ | SpecFloat.S754_nan => true
  | _ => false
  end.

(** An elementwise binary operation on two arrays of one length. *)
Definition zip_with {A B C} (op : A -> B -> C) (a : list A) (b : list B)
  : list C :=
  map (fun p => op (fst p) (snd p)) (combine a b).

Section Distinctness.

Context {A : Type}.
Variable eq : A -> A -> bool.

(** No two entries compare equal, whichever way round. *)
Definition apart (a b : A) : Prop := eq a b = false /\ eq b a = false.

Fixpoint Distinct (l : list A) : Prop :=
  match l with
  | [] => True
  | x :: t => Forall (apart x) t /\ Distinct t
  end.

Fixpoint distinctb (l : list A) : bool :=
  match l with
  | [] => true
  | x :: t => forallb (fun y => negb (eq x y) && negb (eq y x)) t
              && distinctb t
  end.

End Distinctness.

(* ------------------------------------------------------------------------- *)
(** ** Sample runs *)

Module Sample.

Import PrimFloat.
Local Open Scope float_scope.

(** Seed 42, one perturbed variable, regeneration from a previous run. *)
Definition cfg0 : config :=
  mkConfig (Some 42%Z) "point_scale" false ["Prec"]%string ["normal"]%string
           true false false "" false "" "out" "PBS" false.

Definition cnt0 : constants float :=
  mkConstants [("Prec"%string, 1000)] [("Prec"%string, 0)] [] [] [].

(** A stored posterior of five steps in two windows, of three and two
    steps. *)
Definition posteriors0 : dataframe float :=
  mkDF 5 [("Prec_noise_mean"%string, [1; 1; 1; 2; 2]);
          ("Prec_noise_sd"%string, [0.5; 0.5; 0.5; 0.25; 0.25])].

(** A stored posterior of three steps with a mean of its own at each. *)
Definition posteriors_dynamic : dataframe float :=
  mkDF 3 [("Prec_noise_mean"%string, [1; 3; 2]);
          ("Prec_noise_sd"%string, [0.5; 0.5; 0.25])].


(** A stand-in generator for closed runs: the state counts the draws, and a
    draw returns its location parameter. *)
Definition count_seed (k : Z) : Z := k.
Definition count_draw (m s : float) (g : Z) : float * Z := (m, (g + 1)%Z).
Definition no_GSC : option string -> option Z -> option Z -> string ->
                    option Z -> M (state float Z) (list float) :=
  fun _ _ _ _ _ => ret [].

(** A restart run with results under ./DATA/RESULTS. *)
Definition cfg_restart : config :=
  mkConfig None "point_scale" false ["Prec"]%string ["lognormal"]%string
           false true false "" false "" "./DATA/RESULTS" "PBS" false.

(** A completed cell on disk: a world that counts the calls that would change
    it, with collaborators that answer with unit objects. *)
Definition disk_has_output : CellAssim.handler unit nat :=
  fun X e w =>
    match e in CellAssim.event _ X return X * nat with
    | CellAssim.os_path_exists _ _ => (true, w)
    | CellAssim.ifn_get_dates_obs _ => (tt, S w)
    | CellAssim.ifn_obs_array _ _ _ => ((tt, tt), S w)
    | CellAssim.ifn_forcing_check _ => (false, S w)
    | CellAssim.ifn_simulation_steps _ _ =>
        (CellAssim.mkTimeDict [0; 1]%nat tt, S w)
    | CellAssim.ifn_run_model_openloop _ _ _ _ => (tt, S w)
    | CellAssim.ifn_io_read _ _ => (None, S w)
    | CellAssim.ifn_io_write _ _ => (tt, S w)
    | CellAssim.ifn_downcast_output _ => (tt, S w)
    | CellAssim.print _ _ => (tt, S w)
    | CellAssim.model_forcing_table _ _ _ => (tt, S w)
    | CellAssim.model_init_result _ _ => (tt, S w)
    | CellAssim.model_store_sim _ _ _ _ _ _ _ => (tt, S w)
    | CellAssim.model_storeDA _ _ _ _ _ _ => (tt, S w)
    | CellAssim.model_storeOL _ _ _ _ _ => (tt, S w)
    | CellAssim.SnowEnsemble _ _ _ => (tt, S w)
    | CellAssim.set_real_time_restart _ => (tt, S w)
    | CellAssim.Ensemble_create _ _ _ _ _ => (tt, S w)
    | CellAssim.flt_implement_assimilation _ _ => (tt, S w)
    | CellAssim.Ensemble_posterior_shape _ => (tt, S w)
    | CellAssim.Ensemble_resample _ _ => (tt, S w)
    | CellAssim.Ensemble_season_rejuvenation _ => (tt, S w)
    | CellAssim.Ensemble_save_space _ => (tt, S w)
    | CellAssim.pdc_downcast _ => (tt, S w)
    end.

End Sample.

(* ------------------------------------------------------------------------- *)
(** ** Reading a run of the cell driver *)

Module Trace.

Import CellAssim.

Section Kinds.

Variable PyObj : Type.

(** A write to disk, of anything. *)
Definition is_write (c : called PyObj) : bool :=
  match c with
  | Called e => match e with ifn_io_write _ _ => true | _ => false end
  end.

(** A call of the assimilation filter. *)
Definition is_filter (c : called PyObj) : bool :=
  match c with
  | Called e =>
      match e with flt_implement_assimilation _ _ => true | _ => false end
  end.

(** The construction or reload of an ensemble, or a call of one of its
    methods. *)
Definition is_ensemble (c : called PyObj) : bool :=
  match c with
  | Called e =>
      match e with
      | SnowEnsemble _ _ _ | ifn_io_read _ _ | set_real_time_restart _
      | Ensemble_create _ _ _ _ _ | Ensemble_posterior_shape _
      | Ensemble_resample _ _ | Ensemble_season_rejuvenation _
      | Ensemble_save_space _ => true
      | _ => false
      end
  end.

(** A write to the file [name]. *)
Definition is_write_to (name : string) (c : called PyObj) : bool :=
  match c with
  | Called e =>
      match e with ifn_io_write n _ => String.eqb n name | _ => false end
  end.

(** The ensemble advanced over a window. *)
Definition is_create (c : called PyObj) : bool :=
  match c with
  | Called e => match e with Ensemble_create _ _ _ _ _ => true | _ => false end
  end.

(** The existence test on a file. *)
Definition is_exists_test (c : called PyObj) : bool :=
  match c with
  | Called e => match e with os_path_exists _ _ => true | _ => false end
  end.

(** The result, the world and the calls of a run. *)
Definition result_of {R W} (o : R * W * list (called PyObj)) : R :=
  fst (fst o).
Definition world_of {R W} (o : R * W * list (called PyObj)) : W :=
  snd (fst o).
Definition calls_of {R W} (o : R * W * list (called PyObj))
  : list (called PyObj) := snd o.

End Kinds.

(** A world whose objects are numbers: the observation provider answers
    with the object [obs] (1 stands for the str a masked cell is answered
    with, 2 for a series of NaN only), the forcing check with [na], the
    window planner with the boundaries [steps]; no file exists. *)
Definition world (obs : nat) (na : bool) (steps : list nat)
  : handler nat nat :=
  fun X e w =>
    match e in event _ X return X * nat with
    | os_path_exists _ _ => (false, w)
    | ifn_get_dates_obs _ => (0, S w)
    | ifn_obs_array _ _ _ => ((obs, 0), S w)
    | ifn_forcing_check _ => (na, S w)
    | ifn_simulation_steps _ _ => (mkTimeDict steps 0, S w)
    | ifn_run_model_openloop _ _ _ _ => (tt, S w)
    | ifn_io_read _ _ => (None, S w)
    | ifn_io_write _ _ => (tt, S w)
    | ifn_downcast_output _ => (0, S w)
    | print _ _ => (tt, S w)
    | model_forcing_table _ _ _ => (0, S w)
    | model_init_result _ _ => (0, S w)
    | model_store_sim _ _ _ _ _ _ _ => (tt, S w)
    | model_storeDA _ _ _ _ _ _ => (tt, S w)
    | model_storeOL _ _ _ _ _ => (tt, S w)
    | SnowEnsemble _ _ _ => (0, S w)
    | set_real_time_restart _ => (tt, S w)
    | Ensemble_create _ _ _ _ _ => (tt, S w)
    | flt_implement_assimilation _ _ => (0, S w)
    | Ensemble_posterior_shape _ => (tt, S w)
    | Ensemble_resample _ _ => (tt, S w)
    | Ensemble_season_rejuvenation _ => (tt, S w)
    | Ensemble_save_space _ => (tt, S w)
    | pdc_downcast _ => (0, S w)
    end.

Definition is_mask (o : nat) : bool := Nat.eqb o 1.
Definition is_all_nan (o : nat) : bool := Nat.eqb o 2.

(** A fresh particle-batch-smoother run, and a reconstruction run. *)
Definition cfg_fresh : config :=
  mkConfig None "point_scale" false ["Prec"]%string ["lognormal"]%string
           false false false "" false "" "./DATA/RESULTS" "PBS" false.
Definition cfg_reconstruct : config :=
  mkConfig None "point_scale" false ["Prec"]%string ["lognormal"]%string
           true false false "" false "" "./DATA/RESULTS" "PBS" false.

End Trace.

(** What a pass of the loop of [redraw], or the whole loop, can do: return a
    storage of [n] entries, or raise IndexError; the store is never
    written. *)
Definition redraw_outcome {F Rng} (s : state F Rng) (n : nat)
           (o : outcome (state F Rng) (list F)) : Prop :=
  match o with
  | Ok storage s' => heap s' = heap s /\ length storage = n
  | Raise e s' => heap s' = heap s /\ e = IndexError
  end.

(* ------------------------------------------------------------------------- *)
(** ** Sample runs with process noise *)

Module SampleNoise.

Import PrimFloat.
Local Open Scope float_scope.

(** Process noise on, no seed, one variable perturbed additively. *)
Definition cfg_dynamic : config :=
  mkConfig None "point_scale" true ["Ta"]%string ["normal"]%string
           false false false "" false "" "out" "PBS" false.

Definition cnt_dynamic : constants float :=
  mkConstants [] [] [("Ta"%string, 0.5)] [("Ta"%string, 0)]
              [("Ta"%string, 1)].

(** A forcing table of two steps, and what it becomes when the temperature
    is shifted by one degree. *)
Definition forcing0 : dataframe float :=
  mkDF 2 [("Ta"%string, [270; 274]); ("Prec"%string, [0; 2]);
          ("SW"%string, [100; 120])].
Definition forcing1 : dataframe float :=
  mkDF 2 [("Ta"%string, [271; 275]); ("Prec"%string, [0; 2]);
          ("SW"%string, [100; 120])].

(** Two variables, two strategies, process noise off. *)
Definition cfg_two : config :=
  mkConfig (Some 7%Z) "point_scale" false ["Ta"; "Prec"]%string
           ["normal"; "lognormal"]%string
           false false false "" false "" "out" "PBS" false.

Definition cnt_two : constants float :=
  mkConstants [] [] [] [("Ta"%string, 1); ("Prec"%string, 1)]
              [("Ta"%string, 1); ("Prec"%string, 0.5)].

(** A stand-in for [np.random.randn]: the state counts the draws, and the
    value drawn is the count. *)
Definition count_randn (g : Z) : float * Z :=
  (of_uint63 (Uint63.of_Z g), (g + 1)%Z).

End SampleNoise.

(* ------------------------------------------------------------------------- *)
(** ** Sample runs of the round trip *)

Module SampleRoundTrip.

Import PrimFloat.
Local Open Scope float_scope.

Definition expit_about_zero (t : float) : float := t + 0.5.

(** Bounds whose difference is beyond the largest float. *)
Definition lo_far : float := -0x1p1023.
Definition hi_far : float := 0x1p1023.

End SampleRoundTrip.

(* ========================================================================= *)
(** * Properties *)

(* ------------------------------------------------------------------------- *)
(** ** The array store *)

Section Store.

Context {A : Type}.

Lemma list_set_length (l : list A) i a : length (list_set l i a) = length l.
Proof.
  revert i; induction l as [|h t IH]; intros [|i]; simpl; auto.
Qed.

Lemma nth_error_list_set_eq (l : list A) i a :
  i < length l -> nth_error (list_set l i a) i = Some a.
Proof.
  revert i; induction l as [|h t IH]; intros [|i] Hi; simpl in *;
    try lia; auto.
  apply IH; lia.
Qed.

Lemma nth_error_list_set_neq (l : list A) i j a :
  i <> j -> nth_error (list_set l i a) j = nth_error l j.
Proof.
  revert i j; induction l as [|h t IH]; intros [|i] [|j] Hij; simpl;
    try congruence; auto.
Qed.

Lemma list_set_twice (l : list A) i a b :
  list_set (list_set l i a) i b = list_set l i b.
Proof.
  revert i; induction l as [|h t IH]; intros [|i]; simpl; auto.
  now rewrite IH.
Qed.

Lemma list_set_same (l : list A) i a :
  nth_error l i = Some a -> list_set l i a = l.
Proof.
  revert i; induction l as [|h t IH]; intros [|i] H; simpl in *;
    try congruence.
  now rewrite IH.
Qed.

Lemma nth_error_snoc (l : list A) a : nth_error (l ++ [a]) (length l) = Some a.
Proof.
  rewrite nth_error_app2 by lia. now rewrite Nat.sub_diag.
Qed.

Lemma list_set_snoc (l : list A) a b :
  list_set (l ++ [a]) (length l) b = l ++ [b].
Proof.
  induction l as [|h t IH]; simpl; [reflexivity|]. now rewrite IH.
Qed.

Lemma nth_error_snoc3 (l : list A) a b c :
  nth_error (((l ++ [a]) ++ [b]) ++ [c]) (S (S (length l))) = Some c.
Proof.
  replace (S (S (length l))) with (length ((l ++ [a]) ++ [b])).
  - apply nth_error_snoc.
  - rewrite !length_app. simpl. lia.
Qed.

Lemma nth_error_last2 (l : list A) a b n :
  n = length l -> nth_error ((l ++ [a]) ++ [b]) (S n) = Some b.
Proof.
  intros ->. replace (S (length l)) with (length (l ++ [a])).
  - apply nth_error_snoc.
  - rewrite length_app. simpl. lia.
Qed.

Lemma nth_error_bound (l : list A) i a : nth_error l i = Some a -> i < length l.
Proof.
  intros H. apply nth_error_Some. congruence.
Qed.

End Store.

(* ------------------------------------------------------------------------- *)
(** ** The bounded transforms *)

Section Transforms.

Context {F : Type} {num : NumOps F}.
Variable Rng : Type.

Local Abbreviation st := (state F Rng).

Lemma mask_assign_none (b : F) (f : F -> F) (x : list F) :
  any_eq x b = false -> mask_assign b f x = x.
Proof.
  unfold any_eq, mask_assign.
  induction x as [|v x IH]; simpl; intros H; [reflexivity|].
  apply orb_false_iff in H as [Hv Hx].
  rewrite Hv, IH by assumption. reflexivity.
Qed.

Lemma mask_assign_twice (lo hi : F) (x : list F) :
  mask_assign hi nudge_down (mask_assign lo nudge_up x)
  = map (nudged lo hi) x.
Proof.
  unfold mask_assign. rewrite map_map. reflexivity.
Qed.

Lemma nudged_off_bounds (lo hi : F) (x : list F) :
  any_eq x lo = false -> any_eq x hi = false -> map (nudged lo hi) x = x.
Proof.
  intros Hlo Hhi. rewrite <- mask_assign_twice.
  rewrite (mask_assign_none _ _ _ Hlo). apply mask_assign_none, Hhi.
Qed.

(** The guard, run: only the argument's cell of the store changes. *)
Lemma nudge_bounds_run (x : ref) (lo hi : F) (s : st) (xv : list F) :
  nth_error (heap s) x = Some xv ->
  nudge_bounds x lo hi s
  = Ok tt (mkState (list_set (heap s) x (map (nudged lo hi) xv)) (rng s)).
Proof.
  intros Hx. pose proof (nth_error_bound _ _ Hx) as Hlt.
  rewrite <- mask_assign_twice.
  destruct s as [h g]. simpl in *.
  unfold nudge_bounds, bind, read, write, ret. simpl. rewrite Hx.
  destruct (any_eq xv lo) eqn:Elo; simpl.
  - rewrite nth_error_list_set_eq by assumption.
    destruct (any_eq (mask_assign lo nudge_up xv) hi) eqn:Ehi; simpl.
    + now rewrite list_set_twice.
    + now rewrite (mask_assign_none _ _ _ Ehi).
  - rewrite Hx. rewrite (mask_assign_none _ _ _ Elo).
    destruct (any_eq xv hi) eqn:Ehi; simpl.
    + reflexivity.
    + rewrite (mask_assign_none _ _ _ Ehi).
      now rewrite (list_set_same _ _ Hx).
Qed.

Lemma glogit_run (logit : F -> F) (x : ref) (lo hi : F) (s : st)
      (xv : list F) :
  nth_error (heap s) x = Some xv ->
  let xv' := map (nudged lo hi) xv in
  let xs := map (scale01 lo hi) xv' in
  glogit logit x lo hi s
  = Ok (S (length (heap s)))
       (mkState ((list_set (heap s) x xv' ++ [xs]) ++ [map logit xs])
                (rng s)).
Proof.
  intros Hx xv' xs. pose proof (nth_error_bound _ _ Hx) as Hlt.
  unfold glogit, bind. rewrite (nudge_bounds_run _ _ _ _ Hx).
  unfold read, alloc. simpl.
  rewrite nth_error_list_set_eq by assumption. simpl.
  rewrite nth_error_snoc. simpl.
  rewrite length_app, list_set_length. simpl.
  now rewrite Nat.add_1_r.
Qed.

Lemma gexpit_run (expit : F -> F) (xt : ref) (lo hi : F) (s : st)
      (xv : list F) :
  nth_error (heap s) xt = Some xv ->
  let xv' := map (nudged lo hi) xv in
  let xs := map expit xv' in
  gexpit expit xt lo hi s
  = Ok (S (length (heap s)))
       (mkState ((list_set (heap s) xt xv' ++ [xs])
                   ++ [map (unscale01 lo hi) xs])
                (rng s)).
Proof.
  intros Hx xv' xs. pose proof (nth_error_bound _ _ Hx) as Hlt.
  unfold gexpit, bind. rewrite (nudge_bounds_run _ _ _ _ Hx).
  unfold read, alloc. simpl.
  rewrite nth_error_list_set_eq by assumption. simpl.
  rewrite nth_error_snoc. simpl.
  rewrite length_app, list_set_length. simpl.
  now rewrite Nat.add_1_r.
Qed.

Lemma array_after_arg (h : list (list F)) (g : Rng) (x : ref) A (a : A)
      (v e1 e2 : list F) :
  x < length h ->
  array_after (Ok a (mkState ((list_set h x v ++ [e1]) ++ [e2]) g)) x
  = Some v.
Proof.
  intros Hlt. unfold array_after. simpl.
  rewrite <- app_assoc, nth_error_app1 by (now rewrite list_set_length).
  now apply nth_error_list_set_eq.
Qed.

Lemma array_after_other (h : list (list F)) (g : Rng) (x y : ref) A (a : A)
      (v e1 e2 : list F) :
  y <> x -> y < length h ->
  array_after (Ok a (mkState ((list_set h x v ++ [e1]) ++ [e2]) g)) y
  = nth_error h y.
Proof.
  intros Hne Hlt. unfold array_after. simpl.
  rewrite <- app_assoc, nth_error_app1 by (now rewrite list_set_length).
  apply nth_error_list_set_neq. congruence.
Qed.

(** C10. [glogit] and [gexpit] work on the caller's array: after the call
    the array the argument refers to holds, entry by entry, the nudged
    values (an entry equal to a bound has been moved by
    [abs(spacing*100)], every other entry is as before), every other array
    of the store is untouched, and an array with no entry on a bound is left
    as it was. *)
Theorem glogit_gexpit_mutate_argument
        (logit expit : F -> F) (x : ref) (lo hi : F) (s : st)
        (xv : list F) :
  nth_error (heap s) x = Some xv ->
  (array_after (glogit logit x lo hi s) x = Some (map (nudged lo hi) xv)
   /\ array_after (gexpit expit x lo hi s) x = Some (map (nudged lo hi) xv))
  /\ (forall v, feqb v lo = true -> feqb (nudge_up v) hi = false ->
                nudged lo hi v = nudge_up v)
  /\ (forall v, feqb v lo = false -> feqb v hi = true ->
                nudged lo hi v = nudge_down v)
  /\ (forall v, feqb v lo = false -> feqb v hi = false ->
                nudged lo hi v = v)
  /\ (forall y, y <> x -> y < length (heap s) ->
                array_after (glogit logit x lo hi s) y = nth_error (heap s) y
                /\ array_after (gexpit expit x lo hi s) y
                   = nth_error (heap s) y)
  /\ (any_eq xv lo = false -> any_eq xv hi = false ->
      array_after (glogit logit x lo hi s) x = Some xv
      /\ array_after (gexpit expit x lo hi s) x = Some xv).
Proof.
  intros Hx. pose proof (nth_error_bound _ _ Hx) as Hlt.
  rewrite (glogit_run logit _ _ _ _ Hx), (gexpit_run expit _ _ _ _ Hx).
  repeat split.
  - now apply array_after_arg.
  - now apply array_after_arg.
  - intros v H1 H2. unfold nudged. now rewrite H1, H2.
  - intros v H1 H2. unfold nudged. now rewrite H1, H2.
  - intros v H1 H2. unfold nudged. now rewrite H1, H2.
  - now apply array_after_other.
  - now apply array_after_other.
  - rewrite array_after_arg by assumption.
    now rewrite nudged_off_bounds.
  - rewrite array_after_arg by assumption.
    now rewrite nudged_off_bounds.
Qed.

End Transforms.

(* ------------------------------------------------------------------------- *)
(** ** The noise generator *)

Lemma str_in_cons (s a : string) (l : list string) :
  str_in s (a :: l) = (String.eqb s a || str_in s l)%bool.
Proof. reflexivity. Qed.

Section Noise.

Context {F : Type} {num : NumOps F}.
Variable expit : F -> F.
Variable Rng : Type.
Variable np_seed : Z -> Rng.
Variable draw_normal : F -> F -> Rng -> F * Rng.
Variable draw_lognormal : F -> F -> Rng -> F * Rng.
Variable cfg : config.
Variable cnt : constants F.

Local Abbreviation st := (state F Rng).
Local Abbreviation create_noise' :=
  (create_noise expit np_seed draw_normal draw_lognormal cfg cnt).
Local Abbreviation draw_by_strategy' :=
  (draw_by_strategy expit draw_normal draw_lognormal cnt).

Lemma reseed_run (s : st) :
  reseed np_seed cfg s = Ok tt (mkState (heap s) (seeded np_seed cfg s)).
Proof.
  unfold reseed, seeded. destruct (seed cfg); [reflexivity|].
  now destruct s.
Qed.

Lemma np_random_one (draw : F -> F -> Rng -> F * Rng) (loc scale : F) (s : st) :
  np_random draw loc scale 1 s
  = Ok [fst (draw loc scale (rng s))]
       (mkState (heap s) (snd (draw loc scale (rng s)))).
Proof.
  simpl. now destruct (draw loc scale (rng s)).
Qed.

Lemma np_repeat_one (v : F) (n : nat) (s : st) :
  np_repeat [v] n s = Ok (length (heap s)) (mkState (heap s ++ [repeat v n]) (rng s)).
Proof.
  unfold np_repeat, alloc. simpl. now rewrite app_nil_r.
Qed.

(** The two broadcast strategies, run. *)
Lemma draw_broadcast_run (draw : F -> F -> Rng -> F * Rng) (n : nat)
      (mean std_dev : F) (s : st) :
  (noise <- np_random draw mean std_dev 1 ;; np_repeat noise n)%py s
  = Ok (length (heap s))
       (mkState (heap s ++ [repeat (fst (draw mean std_dev (rng s))) n])
                (snd (draw mean std_dev (rng s)))).
Proof.
  unfold bind. rewrite np_random_one. now rewrite np_repeat_one.
Qed.

(** The bounded strategies, run, when the variable has its bounds. *)
Lemma draw_logitnormal_run (n : nat) (mean std_dev : F) (var : string)
      (lo hi : F) (s : st) :
  dict_find (upper_bounds cnt) var = Some hi ->
  dict_find (lower_bounds cnt) var = Some lo ->
  let v := fst (draw_normal mean std_dev (rng s)) in
  let xv := map (nudged lo hi) (repeat v n) in
  (bPmax <- dict_get (upper_bounds cnt) var ;;
   bPmin <- dict_get (lower_bounds cnt) var ;;
   norm_noise <- np_random draw_normal mean std_dev 1 ;;
   norm_noise <- np_repeat norm_noise n ;;
   gexpit expit norm_noise bPmin bPmax)%py s
  = Ok (S (S (length (heap s))))
       (mkState (((heap s ++ [xv]) ++ [map expit xv])
                   ++ [map (unscale01 lo hi) (map expit xv)])
                (snd (draw_normal mean std_dev (rng s)))).
Proof.
  intros Hhi Hlo v xv. unfold bind, dict_get. rewrite Hhi, Hlo.
  unfold lift_option, ret.
  rewrite np_random_one, np_repeat_one. fold v.
  erewrite gexpit_run by (simpl; apply nth_error_snoc).
  simpl. rewrite length_app. simpl. rewrite Nat.add_1_r.
  now rewrite list_set_snoc.
Qed.

(** What the dispatch returns depends on the store only through the
    generator. *)
Lemma draw_by_strategy_rng_only (strategy : string) (n : nat)
      (mean std_dev : F) (var : string) (s1 s2 : st) :
  rng s1 = rng s2 ->
  returned_array (draw_by_strategy' strategy n mean std_dev var s1)
  = returned_array (draw_by_strategy' strategy n mean std_dev var s2).
Proof.
  intros Hg. unfold draw_by_strategy.
  destruct (String.eqb strategy "normal").
  { rewrite !draw_broadcast_run. simpl. rewrite !nth_error_snoc.
    now rewrite Hg. }
  destruct (String.eqb strategy "lognormal").
  { rewrite !draw_broadcast_run. simpl. rewrite !nth_error_snoc.
    now rewrite Hg. }
  destruct (str_in strategy _); [|reflexivity].
  destruct (dict_find (upper_bounds cnt) var) as [hi|] eqn:Hhi.
  2:{ unfold bind, dict_get. now rewrite Hhi. }
  destruct (dict_find (lower_bounds cnt) var) as [lo|] eqn:Hlo.
  2:{ unfold bind, dict_get. now rewrite Hhi, Hlo. }
  rewrite !(draw_logitnormal_run _ _ _ _ _ Hhi Hlo).
  cbn [returned_array heap]. rewrite !nth_error_snoc3.
  now rewrite Hg.
Qed.

(** C5. With a seed configured, what [create_noise] returns is a function of
    the seed and the arguments alone: two calls with the same arguments, from
    whatever states of the store and of the generator, return arrays with the
    same contents (or raise the same exception). *)
Theorem create_noise_deterministic_under_seed
        (k : Z) (strategy : string) (n_steps : nat) (mean std_dev : F)
        (var : string) (s1 s2 : st) :
  seed cfg = Some k ->
  returned_array (create_noise' strategy n_steps mean std_dev var s1)
  = returned_array (create_noise' strategy n_steps mean std_dev var s2).
Proof.
  intros Hk. unfold create_noise, bind. rewrite !reseed_run.
  apply draw_by_strategy_rng_only. unfold seeded. now rewrite Hk.
Qed.

(** C6. Under "normal", [create_noise] makes one draw from the normal
    distribution with the given mean and standard deviation, and returns a
    new array of [n_steps] entries, each equal to that draw; the generator
    has advanced by that single draw. *)
Theorem create_noise_normal_broadcasts_one_draw
        (n_steps : nat) (mean std_dev : F) (var : string) (s : st) :
  let draw := draw_normal mean std_dev (seeded np_seed cfg s) in
  exists r s',
    create_noise' "normal" n_steps mean std_dev var s = Ok r s'
    /\ nth_error (heap s') r = Some (repeat (fst draw) n_steps)
    /\ length (repeat (fst draw) n_steps) = n_steps
    /\ Forall (fun v => v = fst draw) (repeat (fst draw) n_steps)
    /\ rng s' = snd draw.
Proof.
  intros draw. unfold create_noise, bind. rewrite reseed_run.
  unfold draw_by_strategy. rewrite String.eqb_refl.
  rewrite draw_broadcast_run. cbn [heap rng].
  eexists _, _. split; [reflexivity|]. simpl.
  repeat split.
  - apply nth_error_snoc.
  - apply repeat_length.
  - apply Forall_forall. intros v Hv. now apply repeat_spec in Hv.
Qed.

(** C7. A strategy name outside the four known ones makes [create_noise]
    raise the configuration error and return nothing; a known name never
    raises, provided the variable of a bounded strategy has its two bounds. *)
Theorem create_noise_strategy_dispatch
        (strategy : string) (n_steps : nat) (mean std_dev : F)
        (var : string) (s : st) :
  (str_in strategy strategies = false ->
   exists e s',
     create_noise' strategy n_steps mean std_dev var s = Raise e s'
     /\ e = Exception "choose the shape of the perturbation parameters"
     /\ ConfigurationError e)
  /\ ((str_in strategy ["logitnormal_mult"; "logitnormal_adi"]%string = true ->
       dict_find (upper_bounds cnt) var <> None
       /\ dict_find (lower_bounds cnt) var <> None) ->
      str_in strategy strategies = true ->
      exists r s' a,
        create_noise' strategy n_steps mean std_dev var s = Ok r s'
        /\ nth_error (heap s') r = Some a /\ length a = n_steps).
Proof.
  unfold create_noise, bind, strategies. rewrite reseed_run.
  unfold draw_by_strategy. rewrite !str_in_cons.
  split.
  - intros H. apply orb_false_iff in H as [H1 H].
    apply orb_false_iff in H as [H2 H].
    rewrite H1, H2, H.
    eexists _, _. repeat split. now eexists.
  - intros Hb.
    destruct (String.eqb strategy "normal").
    { rewrite draw_broadcast_run. eexists _, _, _. split; [reflexivity|].
      cbn [heap]. split; [apply nth_error_snoc | apply repeat_length]. }
    destruct (String.eqb strategy "lognormal").
    { rewrite draw_broadcast_run. eexists _, _, _. split; [reflexivity|].
      cbn [heap]. split; [apply nth_error_snoc | apply repeat_length]. }
    rewrite !orb_false_l.
    destruct (_ || _) eqn:E; [|discriminate].
    destruct (Hb eq_refl) as [Hhi Hlo].
    destruct (dict_find (upper_bounds cnt) var) as [hi|] eqn:Ehi;
      [|congruence].
    destruct (dict_find (lower_bounds cnt) var) as [lo|] eqn:Elo;
      [|congruence].
    rewrite (draw_logitnormal_run _ _ _ _ _ Ehi Elo).
    eexists _, _, _. split; [reflexivity|]. cbn [heap].
    split.
    + apply nth_error_snoc3.
    + now rewrite !length_map, repeat_length.
Qed.

End Noise.

(* ------------------------------------------------------------------------- *)
(** ** np.unique on a series without repeats *)

Section Unique.

Context {A : Type}.
Variables lt eq : A -> A -> bool.

Local Abbreviation Distinct := (Distinct eq).
Local Abbreviation apart := (apart eq).

Lemma distinctb_Distinct (l : list A) : distinctb eq l = true -> Distinct l.
Proof.
  induction l as [|x t IH]; simpl; [trivial|].
  intros H. apply andb_true_iff in H as [Hx Ht]. split; [|auto].
  apply Forall_forall. intros y Hy.
  rewrite forallb_forall in Hx. specialize (Hx y Hy).
  apply andb_true_iff in Hx as [H1 H2].
  split; now apply negb_true_iff.
Qed.

Lemma apart_sym (a b : A) : apart a b -> apart b a.
Proof. unfold apart. tauto. Qed.

Lemma Distinct_Permutation (l l' : list A) :
  Permutation l l' -> Distinct l -> Distinct l'.
Proof.
  induction 1 as [|x l l' Hp IH|x y l|l l' l'' _ IH1 _ IH2]; simpl.
  - trivial.
  - intros [Hx Hl]. split; [|auto].
    eapply Permutation_Forall; eassumption.
  - intros [Hy [Hx Hl]]. inversion Hy as [|? ? Hyx Hyl]; subst.
    repeat split; auto. constructor; [now apply apart_sym | assumption].
  - auto.
Qed.

Lemma insert_sorted_Permutation (x : A) (l : list A) :
  Permutation (x :: l) (insert_sorted lt x l).
Proof.
  induction l as [|y t IH]; simpl; [reflexivity|].
  destruct (lt y x); [|reflexivity].
  rewrite perm_swap. now constructor.
Qed.

Lemma np_sort_Permutation (l : list A) : Permutation l (np_sort lt l).
Proof.
  induction l as [|x t IH]; simpl; [reflexivity|].
  rewrite <- insert_sorted_Permutation. now constructor.
Qed.

Lemma keep_changes_Distinct (prev : A) (l : list A) :
  Distinct (prev :: l) -> keep_changes eq prev l = l.
Proof.
  revert prev; induction l as [|x t IH]; intros prev; simpl; [reflexivity|].
  intros [Hp [Hx Ht]]. inversion Hp as [|? ? [_ Hxp] _]; subst.
  rewrite Hxp. f_equal. apply IH. simpl. auto.
Qed.

(** On a series without repeats [np.unique] only sorts. *)
Lemma np_unique_Distinct (l : list A) :
  Distinct l -> np_unique lt eq l = np_sort lt l.
Proof.
  intros Hd. unfold np_unique.
  pose proof (Distinct_Permutation (np_sort_Permutation l) Hd) as Hs.
  destruct (np_sort lt l) as [|x t]; [reflexivity|].
  now rewrite keep_changes_Distinct.
Qed.

Lemma np_unique_Distinct_length (l : list A) :
  Distinct l -> length (np_unique lt eq l) = length l.
Proof.
  intros Hd. rewrite np_unique_Distinct by assumption.
  symmetry. apply Permutation_length, np_sort_Permutation.
Qed.

End Unique.

(* ------------------------------------------------------------------------- *)
(** ** Regeneration from a posterior, and the perturbation loop *)

Section Posterior.

Context {F : Type} {num : NumOps F}.
Variables logit expit np_exp np_log : F -> F.
Variable Rng : Type.
Variable np_seed : Z -> Rng.
Variable draw_normal : F -> F -> Rng -> F * Rng.
Variable draw_lognormal : F -> F -> Rng -> F * Rng.
Variable cfg : config.
Variable cnt : constants F.

Local Abbreviation st := (state F Rng).

(** C4. The dynamic-noise case: when no two per-step means of the stored
    series are equal, [create_noise_from_posterior] rebinds [counts] to the
    int [len(posteriors)] and then asks for [len(counts)]: the call raises
    TypeError and returns no series. Only the re-seeding has happened by
    then. *)
Theorem create_noise_from_posterior_dynamic_case_raises
        (d : dataframe F) (strategy var_tmp : string)
        (post_mean post_std_dev : list F) (s : st) :
  dict_find (df_cols d) (var_tmp ++ "_noise_mean") = Some post_mean ->
  dict_find (df_cols d) (var_tmp ++ "_noise_sd") = Some post_std_dev ->
  df_len d = length post_mean ->
  distinctb feqb post_mean = true ->
  create_noise_from_posterior expit np_seed draw_normal draw_lognormal cfg cnt
                              (Some d) strategy var_tmp s
  = Raise (TypeError "object of type 'int' has no len()")
          (mkState (heap s) (seeded np_seed cfg s)).
Proof.
  intros Hm Hsd Hlen Hd.
  unfold create_noise_from_posterior, bind. rewrite reseed_run.
  unfold df_column, dict_get. rewrite Hm, Hsd. cbn [lift_option ret len_df].
  rewrite (@np_unique_Distinct_length _ fltb feqb _ (distinctb_Distinct _ _ Hd)).
  rewrite Hlen, Nat.eqb_refl. reflexivity.
Qed.

Variable spM_read_parameter :
  option string -> option Z -> option Z -> string -> option Z -> M st (list F).


End Posterior.

(* ------------------------------------------------------------------------- *)
(** ** The code evaluated in binary64 *)

Module B64.

Import PrimFloat Sample.
Local Open Scope float_scope.

Section Eval.

Variable logit : float -> float.
Variable expit : float -> float.
Variable Rng : Type.
Variable np_seed : Z -> Rng.
Variables normal_value lognormal_value : float -> float -> Rng -> float.
Variables normal_next lognormal_next : float -> float -> Rng -> Rng.

(** C2, failing input. With the bounds 0 and 1000, an entry equal to the
    lower bound is nudged to 100 times the smallest subnormal, and dividing
    that by 1000 rounds to zero: [logit] is applied to exactly 0, where
    scipy's logit is minus infinity. The entry inside the bounds is mapped
    without a nudge. *)
Theorem glogit_zero_lower_bound_reaches_logit_of_zero (g : Rng) :
  glogit logit 0%nat 0 1000 (mkState [[0; 500]] g)
  = Ok 2%nat (mkState [[0x64p-1074; 500]; [0; 0.5]; [logit 0; logit 0.5]] g).
Proof. vm_compute. reflexivity. Qed.

(** C3, failing input. From a stored series of five steps whose means form a
    window of three steps and a window of two, the regenerated series has six
    steps: every window is given the length of the first one
    ([n_steps = counts[0]]). *)
Theorem create_noise_from_posterior_repeats_first_window_length (g : Rng) :
  let v1 := normal_value 1 0.5 (np_seed 42) in
  let v2 := normal_value 2 0.25 (np_seed 42) in
  returned_array
    (create_noise_from_posterior
       expit np_seed (draw_pair normal_value normal_next)
       (draw_pair lognormal_value lognormal_next)
       cfg0 cnt0 (Some posteriors0) "normal" "Prec" (mkState [] g))
  = inr (Some [v1; v1; v1; v2; v2; v2]).
Proof. vm_compute. reflexivity. Qed.

End Eval.

(** In binary64 the entries on a bound do change: the caller's array
    [0, 0.5, 1] with bounds 0 and 1 holds [100*2^-1074, 0.5, 1 - 100*2^-53]
    after [glogit]. *)
Lemma glogit_gexpit_mutate_argument_witness :
  array_after (glogit (fun v => v) 0%nat 0 1 (mkState [[0; 0.5; 1]] 0%Z)) 0%nat
  = Some [0x64p-1074; 0.5; 0x1.fffffffffff38p-1].
Proof.
  refine (eq_trans
            (proj1 (proj1 (@glogit_gexpit_mutate_argument
                             float _ Z (fun v => v) (fun v => v) 0%nat 0 1
                             (mkState [[0; 0.5; 1]] 0%Z) [0; 0.5; 1]
                             eq_refl))) _).
  vm_compute. reflexivity.
Defined.

Lemma create_noise_deterministic_under_seed_witness :
  returned_array
    (create_noise (fun v => v) count_seed count_draw count_draw cfg0 cnt0
                  "normal" 5 0 1 "Prec" (mkState [] 7%Z))
  = returned_array
      (create_noise (fun v => v) count_seed count_draw count_draw cfg0 cnt0
                    "normal" 5 0 1 "Prec" (mkState [[1; 2]] 99%Z)).
Proof.
  apply (@create_noise_deterministic_under_seed
           float _ (fun v => v) Z count_seed count_draw count_draw cfg0 cnt0
           42%Z).
  reflexivity.
Defined.

Lemma create_noise_from_posterior_dynamic_case_raises_witness :
  create_noise_from_posterior
    (fun v => v) count_seed count_draw count_draw cfg0 cnt0
    (Some posteriors_dynamic) "normal" "Prec" (mkState [] 0%Z)
  = Raise (TypeError "object of type 'int' has no len()") (mkState [] 42%Z).
Proof.
  apply (@create_noise_from_posterior_dynamic_case_raises
           float _ (fun v => v) Z count_seed count_draw count_draw cfg0 cnt0
           posteriors_dynamic "normal" "Prec" [1; 3; 2] [0.5; 0.5; 0.25]
           (mkState [] 0%Z));
    reflexivity.
Defined.


End B64.

(* ------------------------------------------------------------------------- *)
(** ** The cell driver on a restart *)

Section Restart.

Import CellAssim.

Variable PyObj : Type.
Variable isinstance_str : PyObj -> bool.
Variable isnan_all : PyObj -> bool.
Variable slice : PyObj -> nat -> nat -> PyObj.
Variable copy : PyObj -> PyObj.
Variable getitem : PyObj -> string -> PyObj.
Variable World : Type.

(** C8. On a restart run, when the output file of the cell exists,
    [cell_assimilation] returns None at once: the only call it makes is the
    existence test on that file, so neither the observation provider
    ([get_dates_obs], [obs_array]) nor the model adapter ([forcing_table])
    is reached, and the world is as the test left it, that is unchanged. *)
Theorem cell_assimilation_skips_completed_cell
        (cfg : config) (lat_idx lon_idx : Z)
        (h : handler PyObj World) (w : World) :
  restart_run cfg = true ->
  h _ (os_path_exists PyObj (cell_filename cfg lat_idx lon_idx)) w
  = (true, w) ->
  run h (cell_assimilation isinstance_str isnan_all slice copy getitem
                           cfg lat_idx lon_idx) w
  = (ReturnNone, w,
     [Called (os_path_exists PyObj (cell_filename cfg lat_idx lon_idx))]).
Proof.
  intros Hrestart Hexists. unfold cell_assimilation.
  rewrite Hrestart. simpl. rewrite Hexists. reflexivity.
Qed.

End Restart.

Module RestartRun.

Import CellAssim Sample.

Lemma cell_assimilation_skips_completed_cell_witness :
  run disk_has_output
      (cell_assimilation (fun _ => false) (fun _ => false) (fun o _ _ => o)
                         (fun o => o) (fun o _ => o) cfg_restart 3 14) 0
  = (ReturnNone, 0,
     [Called (os_path_exists unit "./DATA/RESULTS/cell_3_14.pkl.blp")]).
Proof.
  apply (@cell_assimilation_skips_completed_cell
           unit (fun _ => false) (fun _ => false) (fun o _ _ => o)
           (fun o => o) (fun o _ => o) nat cfg_restart 3 14
           disk_has_output 0);
    reflexivity.
Defined.

End RestartRun.


(* ------------------------------------------------------------------------- *)
(** ** The other ways out of the cell driver *)

Section CellPaths.

Import CellAssim Trace.

Variable PyObj : Type.
Variable isinstance_str : PyObj -> bool.
Variable isnan_all : PyObj -> bool.
Variable slice : PyObj -> nat -> nat -> PyObj.
Variable copy : PyObj -> PyObj.
Variable getitem : PyObj -> string -> PyObj.
Variable World : Type.
Variable cfg : config.
Variables lat_idx lon_idx : Z.
Variable h : handler PyObj World.

Local Abbreviation cell :=
  (cell_assimilation isinstance_str isnan_all slice copy getitem
                     cfg lat_idx lon_idx).

(** Unfold the run up to the next call. *)
Ltac unroll := cbn -[String.append str cell_filename os_path_join is_mcmc].

(** Answer the next pending call, whatever the collaborator says. *)
Ltac answer :=
  match goal with
  | |- context [@h ?X ?e ?w] =>
      let a := fresh "a" in
      let w' := fresh "w" in
      destruct (@h X e w) as [a w']; try destruct a; unroll
  end.

(** A masked cell: when the observation provider answers with a str, the
    driver returns None after its two calls to the provider; the model
    adapter is not reached and nothing is written. *)
Theorem cell_assimilation_skips_masked_cell
        (w w1 w2 : World) (dates_obs observations errors : PyObj) :
  restart_run cfg = false ->
  @h _ (ifn_get_dates_obs PyObj) w = (dates_obs, w1) ->
  @h _ (ifn_obs_array dates_obs lat_idx lon_idx) w1
  = ((observations, errors), w2) ->
  isinstance_str observations = true ->
  run h cell w
  = (ReturnNone, w2,
     [Called (ifn_get_dates_obs PyObj);
      Called (ifn_obs_array dates_obs lat_idx lon_idx)]).
Proof.
  intros Hrestart Hdates Hobs Hmask. unfold cell_assimilation.
  rewrite Hrestart. unroll. rewrite Hdates. unroll. rewrite Hobs. unroll.
  rewrite Hmask. reflexivity.
Qed.

(** Forcing with missing values: the driver prints the cell and returns
    None; the window planner is not called, no ensemble is built and nothing
    is written. *)
Theorem cell_assimilation_skips_cell_with_bad_forcing
        (w w1 w2 w3 w4 w5 : World)
        (dates_obs observations errors main_forcing : PyObj) :
  restart_run cfg = false ->
  @h _ (ifn_get_dates_obs PyObj) w = (dates_obs, w1) ->
  @h _ (ifn_obs_array dates_obs lat_idx lon_idx) w1
  = ((observations, errors), w2) ->
  isinstance_str observations = false ->
  @h _ (model_forcing_table PyObj lat_idx lon_idx) w2 = (main_forcing, w3) ->
  @h _ (ifn_forcing_check main_forcing) w3 = (true, w4) ->
  @h _ (print PyObj ("NA's found in: " ++ str lat_idx ++ "," ++ str lon_idx))
    w4 = (tt, w5) ->
  run h cell w
  = (ReturnNone, w5,
     [Called (ifn_get_dates_obs PyObj);
      Called (ifn_obs_array dates_obs lat_idx lon_idx);
      Called (model_forcing_table PyObj lat_idx lon_idx);
      Called (ifn_forcing_check main_forcing);
      Called (print PyObj
                ("NA's found in: " ++ str lat_idx ++ "," ++ str lon_idx))]).
Proof.
  intros Hrestart Hdates Hobs Hmask Hforcing Hna Hprint.
  unfold cell_assimilation.
  rewrite Hrestart. unroll. rewrite Hdates. unroll. rewrite Hobs. unroll.
  rewrite Hmask. unroll. rewrite Hforcing. unroll. rewrite Hna. unroll.
  rewrite Hprint. reflexivity.
Qed.

(** Open loop: when every observation is NaN or the algorithm is
    "deterministic_OL", and the run is not a reconstruction, the driver hands
    the cell to [run_model_openloop] with the cell's output file and returns
    None: no result frame is initialised and no ensemble is built. *)
Theorem cell_assimilation_runs_open_loop
        (w w1 w2 w3 w4 w5 w6 : World)
        (dates_obs observations errors main_forcing : PyObj)
        (t : time_dict PyObj) :
  restart_run cfg = false ->
  load_prev_run cfg = false ->
  @h _ (ifn_get_dates_obs PyObj) w = (dates_obs, w1) ->
  @h _ (ifn_obs_array dates_obs lat_idx lon_idx) w1
  = ((observations, errors), w2) ->
  isinstance_str observations = false ->
  @h _ (model_forcing_table PyObj lat_idx lon_idx) w2 = (main_forcing, w3) ->
  @h _ (ifn_forcing_check main_forcing) w3 = (false, w4) ->
  @h _ (ifn_simulation_steps observations dates_obs) w4 = (t, w5) ->
  isnan_all observations = true
  \/ da_algorithm cfg = "deterministic_OL"%string ->
  @h _ (ifn_run_model_openloop lat_idx lon_idx main_forcing
         (cell_filename cfg lat_idx lon_idx)) w5 = (tt, w6) ->
  run h cell w
  = (ReturnNone, w6,
     [Called (ifn_get_dates_obs PyObj);
      Called (ifn_obs_array dates_obs lat_idx lon_idx);
      Called (model_forcing_table PyObj lat_idx lon_idx);
      Called (ifn_forcing_check main_forcing);
      Called (ifn_simulation_steps observations dates_obs);
      Called (ifn_run_model_openloop lat_idx lon_idx main_forcing
                (cell_filename cfg lat_idx lon_idx))]).
Proof.
  intros Hrestart Hprev Hdates Hobs Hmask Hforcing Hna Hsteps Hol Hrun.
  unfold cell_assimilation.
  rewrite Hrestart. unroll. rewrite Hdates. unroll. rewrite Hobs. unroll.
  rewrite Hmask. unroll. rewrite Hforcing. unroll. rewrite Hna. unroll.
  rewrite Hsteps. unroll.
  assert (Hcond : (isnan_all observations
                   || String.eqb (da_algorithm cfg) "deterministic_OL")
                  && negb (load_prev_run cfg) = true).
  { rewrite Hprev. unroll. rewrite andb_true_r.
    destruct Hol as [H1|H1]; rewrite H1; [reflexivity|].
    now rewrite orb_true_r. }
  rewrite Hcond. unroll. rewrite Hrun. reflexivity.
Qed.

(** No window: when the planner returns fewer than two boundaries the loop
    body never runs, and the call after the loop reads [observations_sbst]
    before it was ever bound: the driver raises NameError. The ensemble has
    been built by then, and nothing has been written. *)
Theorem cell_assimilation_without_window_raises
        (w w1 w2 w3 w4 w5 : World)
        (dates_obs observations errors main_forcing : PyObj)
        (t : time_dict PyObj) :
  restart_run cfg = false ->
  @h _ (ifn_get_dates_obs PyObj) w = (dates_obs, w1) ->
  @h _ (ifn_obs_array dates_obs lat_idx lon_idx) w1
  = ((observations, errors), w2) ->
  isinstance_str observations = false ->
  @h _ (model_forcing_table PyObj lat_idx lon_idx) w2 = (main_forcing, w3) ->
  @h _ (ifn_forcing_check main_forcing) w3 = (false, w4) ->
  @h _ (ifn_simulation_steps observations dates_obs) w4 = (t, w5) ->
  (isnan_all observations
   || String.eqb (da_algorithm cfg) "deterministic_OL")
  && negb (load_prev_run cfg) = false ->
  length (Assimilaiton_steps t) <= 1 ->
  result_of (run h cell w) = Raises (NameError "observations_sbst")
  /\ existsb (@is_write PyObj) (calls_of (run h cell w)) = false
  /\ existsb (@is_ensemble PyObj) (calls_of (run h cell w)) = true.
Proof.
  intros Hrestart Hdates Hobs Hmask Hforcing Hna Hsteps Hol Hlen.
  unfold cell_assimilation.
  rewrite Hrestart. unroll. rewrite Hdates. unroll. rewrite Hobs. unroll.
  rewrite Hmask. unroll. rewrite Hforcing. unroll. rewrite Hna. unroll.
  rewrite Hsteps. unroll.
  rewrite Hol.
  replace (length (Assimilaiton_steps t) - 1) with 0 by lia.
  unfold result_of, calls_of.
  destruct (is_mcmc cfg); destruct (real_time_restart cfg);
    destruct (load_prev_run cfg); unroll; repeat answer; auto.
Qed.

(** Reconstruction: with [load_prev_run] set and at least one window, the
    driver advances the ensemble over the first window only, writes the prior
    mean and standard deviation to the cell's output file and returns None;
    the filter is never called. *)
Theorem cell_assimilation_reconstruction_stops_after_first_window
        (w w1 w2 w3 w4 w5 : World)
        (dates_obs observations errors main_forcing : PyObj)
        (t : time_dict PyObj) :
  restart_run cfg = false ->
  load_prev_run cfg = true ->
  @h _ (ifn_get_dates_obs PyObj) w = (dates_obs, w1) ->
  @h _ (ifn_obs_array dates_obs lat_idx lon_idx) w1
  = ((observations, errors), w2) ->
  isinstance_str observations = false ->
  @h _ (model_forcing_table PyObj lat_idx lon_idx) w2 = (main_forcing, w3) ->
  @h _ (ifn_forcing_check main_forcing) w3 = (false, w4) ->
  @h _ (ifn_simulation_steps observations dates_obs) w4 = (t, w5) ->
  2 <= length (Assimilaiton_steps t) ->
  result_of (run h cell w) = ReturnNone
  /\ length (filter (@is_create PyObj) (calls_of (run h cell w))) = 1
  /\ existsb (@is_filter PyObj) (calls_of (run h cell w)) = false
  /\ length (filter (@is_write PyObj) (calls_of (run h cell w))) = 1
  /\ length (filter (is_write_to (cell_filename cfg lat_idx lon_idx))
                    (calls_of (run h cell w))) = 1.
Proof.
  intros Hrestart Hprev Hdates Hobs Hmask Hforcing Hna Hsteps Hlen.
  unfold cell_assimilation.
  rewrite Hrestart. unroll. rewrite Hdates. unroll. rewrite Hobs. unroll.
  rewrite Hmask. unroll. rewrite Hforcing. unroll. rewrite Hna. unroll.
  rewrite Hsteps. unroll. rewrite Hprev, andb_false_r.
  destruct (Assimilaiton_steps t) as [|b0 [|b1 bs]] eqn:Est;
    cbn [length] in Hlen; try lia.
  unfold result_of, calls_of.
  destruct (is_mcmc cfg);
    repeat (unroll; first [rewrite Hprev | rewrite andb_false_r | answer]);
    rewrite ?String.eqb_refl; auto.
Qed.

End CellPaths.

Module CellPathRuns.

Import CellAssim Trace.

Local Abbreviation cell_in cfg :=
  (cell_assimilation is_mask is_all_nan (fun o _ _ => o) (fun o => o)
                     (fun o _ => o) cfg 3 14).

Lemma cell_assimilation_skips_masked_cell_witness :
  run (world 1 false [0; 5]) (cell_in cfg_fresh) 0
  = (ReturnNone, 2,
     [Called (ifn_get_dates_obs nat); Called (ifn_obs_array 0 3 14)]).
Proof.
  apply (@cell_assimilation_skips_masked_cell
           nat is_mask is_all_nan (fun o _ _ => o) (fun o => o)
           (fun o _ => o) nat cfg_fresh 3 14 (world 1 false [0; 5])
           0 1 2 0 1 0);
    reflexivity.
Defined.

Lemma cell_assimilation_skips_cell_with_bad_forcing_witness :
  run (world 0 true [0; 5]) (cell_in cfg_fresh) 0
  = (ReturnNone, 5,
     [Called (ifn_get_dates_obs nat); Called (ifn_obs_array 0 3 14);
      Called (model_forcing_table nat 3 14); Called (ifn_forcing_check 0);
      Called (print nat "NA's found in: 3,14")]).
Proof.
  apply (@cell_assimilation_skips_cell_with_bad_forcing
           nat is_mask is_all_nan (fun o _ _ => o) (fun o => o)
           (fun o _ => o) nat cfg_fresh 3 14 (world 0 true [0; 5])
           0 1 2 3 4 5 0 0 0 0);
    reflexivity.
Defined.

Lemma cell_assimilation_runs_open_loop_witness :
  run (world 2 false [0; 5]) (cell_in cfg_fresh) 0
  = (ReturnNone, 6,
     [Called (ifn_get_dates_obs nat); Called (ifn_obs_array 0 3 14);
      Called (model_forcing_table nat 3 14); Called (ifn_forcing_check 0);
      Called (ifn_simulation_steps 2 0);
      Called (ifn_run_model_openloop 3 14 0
                "./DATA/RESULTS/cell_3_14.pkl.blp")]).
Proof.
  apply (@cell_assimilation_runs_open_loop
           nat is_mask is_all_nan (fun o _ _ => o) (fun o => o)
           (fun o _ => o) nat cfg_fresh 3 14 (world 2 false [0; 5])
           0 1 2 3 4 5 6 0 2 0 0 (mkTimeDict [0; 5] 0));
    try reflexivity.
  left. reflexivity.
Defined.

Lemma cell_assimilation_without_window_raises_witness :
  result_of (run (world 0 false [0]) (cell_in cfg_fresh) 0)
  = Raises (NameError "observations_sbst")
  /\ existsb (@is_write nat)
             (calls_of (run (world 0 false [0]) (cell_in cfg_fresh) 0))
     = false
  /\ existsb (@is_ensemble nat)
             (calls_of (run (world 0 false [0]) (cell_in cfg_fresh) 0))
     = true.
Proof.
  apply (@cell_assimilation_without_window_raises
           nat is_mask is_all_nan (fun o _ _ => o) (fun o => o)
           (fun o _ => o) nat cfg_fresh 3 14 (world 0 false [0])
           0 1 2 3 4 5 0 0 0 0 (mkTimeDict [0] 0));
    try reflexivity; simpl; lia.
Defined.

Lemma cell_assimilation_reconstruction_stops_after_first_window_witness :
  let out := run (world 0 false [0; 5; 9]) (cell_in cfg_reconstruct) 0 in
  result_of out = ReturnNone
  /\ length (filter (@is_create nat) (calls_of out)) = 1
  /\ existsb (@is_filter nat) (calls_of out) = false
  /\ length (filter (@is_write nat) (calls_of out)) = 1
  /\ length (filter (is_write_to (cell_filename cfg_reconstruct 3 14))
                    (calls_of out)) = 1.
Proof.
  apply (@cell_assimilation_reconstruction_stops_after_first_window
           nat is_mask is_all_nan (fun o _ _ => o) (fun o => o)
           (fun o _ => o) nat cfg_reconstruct 3 14 (world 0 false [0; 5; 9])
           0 1 2 3 4 5 0 0 0 0 (mkTimeDict [0; 5; 9] 0));
    try reflexivity; simpl; lia.
Defined.

End CellPathRuns.

(* ------------------------------------------------------------------------- *)
(** ** Process noise, and the edges of the noise generator *)

Lemma bind_Ok {S A B} (m : M S A) (k : A -> M S B) (s s'' : S) (b : B) :
  bind m k s = Ok b s'' ->
  exists a s', m s = Ok a s' /\ k a s' = Ok b s''.
Proof.
  unfold bind. destruct (m s) as [a s'|e s']; [|discriminate].
  intros H. now exists a, s'.
Qed.

Lemma map_repeat {A B} (f : A -> B) (a : A) (n : nat) :
  map f (repeat a n) = repeat (f a) n.
Proof.
  induction n as [|n IH]; simpl; [reflexivity|]. now rewrite IH.
Qed.

Lemma nth_error_app_old {A} (l l' : list A) (y : nat) :
  y < length l -> nth_error (l ++ l') y = nth_error l y.
Proof. intros H. now apply nth_error_app1. Qed.

Section NoiseEdges.

Context {F : Type} {num : NumOps F}.
Variables logit expit np_exp np_log : F -> F.
Variable Rng : Type.
Variable np_seed : Z -> Rng.
Variable draw_normal : F -> F -> Rng -> F * Rng.
Variable draw_lognormal : F -> F -> Rng -> F * Rng.
Variable cfg : config.
Variable cnt : constants F.

Local Abbreviation st := (state F Rng).

(** [size] draws leave the store alone and return [size] values. *)
Lemma np_random_run (draw : F -> F -> Rng -> F * Rng) (loc scale : F)
      (size : nat) (s : st) :
  exists vs g,
    np_random draw loc scale size s = Ok vs (mkState (heap s) g)
    /\ length vs = size.
Proof.
  revert s; induction size as [|n IH]; intros s; simpl.
  - exists [], (rng s). destruct s. now split.
  - destruct (draw loc scale (rng s)) as [v g].
    destruct (IH (mkState (heap s) g)) as [vs [g' [Hrun Hlen]]].
    unfold bind. rewrite Hrun. simpl.
    exists (v :: vs), g'. split; [reflexivity | simpl; now rewrite Hlen].
Qed.

Lemma cumsum_from_length (acc : F) (l : list F) :
  length (cumsum_from acc l) = length l.
Proof.
  revert acc; induction l as [|x t IH]; intros acc; simpl; [reflexivity|].
  now rewrite IH.
Qed.

Lemma np_cumsum_length (l : list F) : length (np_cumsum l) = length l.
Proof.
  destruct l as [|x t]; simpl; [reflexivity|].
  now rewrite cumsum_from_length.
Qed.

(** Every array [create_noise] returns is constant over the steps, whatever
    the strategy, and the call leaves the arrays already in the store as they
    were, also when it raises. *)
Theorem create_noise_constant_in_time
        (strategy : string) (n_steps : nat) (mean std_dev : F)
        (var : string) (s : st) :
  match create_noise expit np_seed draw_normal draw_lognormal cfg cnt
               strategy n_steps mean std_dev var s with
  | Ok r s' =>
      (exists c, nth_error (heap s') r = Some (repeat c n_steps))
      /\ forall y, y < length (heap s) ->
                   nth_error (heap s') y = nth_error (heap s) y
  | Raise _ s' => heap s' = heap s
  end.
Proof.
  unfold create_noise, bind. rewrite reseed_run.
  unfold draw_by_strategy.
  destruct (String.eqb strategy "normal").
  { rewrite draw_broadcast_run. cbn [heap]. split.
    - eexists. apply nth_error_snoc.
    - intros y Hy. now apply nth_error_app_old. }
  destruct (String.eqb strategy "lognormal").
  { rewrite draw_broadcast_run. cbn [heap]. split.
    - eexists. apply nth_error_snoc.
    - intros y Hy. now apply nth_error_app_old. }
  destruct (str_in strategy _); [|reflexivity].
  destruct (dict_find (upper_bounds cnt) var) as [hi|] eqn:Ehi.
  2:{ unfold bind, dict_get. rewrite Ehi. reflexivity. }
  destruct (dict_find (lower_bounds cnt) var) as [lo|] eqn:Elo.
  2:{ unfold bind, dict_get. rewrite Ehi, Elo. reflexivity. }
  erewrite draw_logitnormal_run by eassumption. cbn [heap]. split.
  - rewrite nth_error_snoc3, !map_repeat. now eexists.
  - intros y Hy. rewrite <- !app_assoc. now apply nth_error_app_old.
Qed.

(** A bounded strategy for a variable without an upper or a lower bound in
    the constants raises KeyError with the variable's name, after the
    re-seeding and before any draw. *)
Theorem create_noise_bounded_needs_bounds
        (strategy : string) (n_steps : nat) (mean std_dev : F)
        (var : string) (s : st) :
  strategy = "logitnormal_mult"%string \/ strategy = "logitnormal_adi"%string ->
  dict_find (upper_bounds cnt) var = None
  \/ dict_find (lower_bounds cnt) var = None ->
  create_noise expit np_seed draw_normal draw_lognormal cfg cnt
               strategy n_steps mean std_dev var s
  = Raise (KeyError var) (mkState (heap s) (seeded np_seed cfg s)).
Proof.
  intros Hs Hb. unfold create_noise, bind. rewrite reseed_run.
  unfold draw_by_strategy, bind, dict_get.
  destruct Hs as [-> | ->]; cbn [String.eqb str_in existsb];
    cbn -[dict_find];
    (destruct (dict_find (upper_bounds cnt) var) eqn:Ehi;
     [destruct Hb as [Hb|Hb]; [discriminate | rewrite Hb; reflexivity]
     | reflexivity]).
Qed.

(** Process noise switched off, by the spatial-propagation mode or by the
    toggle: the reference passed in is returned and neither the store nor the
    generator changes; the strategy name is not looked at. *)
Theorem add_process_noise_off_returns_argument
        (noise_coef : ref) (var strategy : string) (s : st) :
  implementation cfg = "Spatial_propagation"%string
  \/ add_dynamic_noise cfg = false ->
  add_process_noise logit expit np_exp np_log draw_normal cfg cnt
                    noise_coef var strategy s = Ok noise_coef s.
Proof.
  intros H. unfold add_process_noise.
  destruct H as [H|H].
  - rewrite H, String.eqb_refl. reflexivity.
  - rewrite H. now destruct (String.eqb _ _).
Qed.

(** Process noise under "normal": one increment per step is drawn with the
    variable's magnitude, and a new array holds the coefficients plus the
    running sum of the increments; it has as many entries as the input, which
    is left as it was. *)
Theorem add_process_noise_normal_adds_running_sum
        (noise_coef : ref) (var : string) (sd : F) (coef : list F) (s : st) :
  implementation cfg <> "Spatial_propagation"%string ->
  add_dynamic_noise cfg = true ->
  dict_find (dyn_noise cnt) var = Some sd ->
  nth_error (heap s) noise_coef = Some coef ->
  exists add_vals g out,
    np_random draw_normal (of_nat 0) sd (length coef) s
    = Ok add_vals (mkState (heap s) g)
    /\ out = map (fun p => fadd (fst p) (snd p))
                 (combine coef (np_cumsum add_vals))
    /\ length out = length coef
    /\ add_process_noise logit expit np_exp np_log draw_normal cfg cnt
                    noise_coef var "normal" s
       = Ok (length (heap s)) (mkState (heap s ++ [out]) g).
Proof.
  intros Himpl Hdyn Hsd Hcoef.
  destruct (np_random_run draw_normal (of_nat 0) sd (length coef) s)
    as [add_vals [g [Hrun Hlen]]].
  exists add_vals, g. eexists. split; [exact Hrun|]. split; [reflexivity|].
  split.
  { rewrite length_map, length_combine, np_cumsum_length, Hlen.
    apply Nat.min_id. }
  unfold add_process_noise.
  apply String.eqb_neq in Himpl. rewrite Himpl, Hdyn.
  unfold bind, dict_get. rewrite Hsd. cbn [lift_option ret].
  unfold read at 1. rewrite Hcoef. rewrite Hrun.
  rewrite String.eqb_refl. unfold broadcast2.
  rewrite np_cumsum_length, Hlen, Nat.eqb_refl. reflexivity.
Qed.

(** With process noise on, an unknown strategy name raises only after the
    increments have been drawn: the exception leaves the generator advanced
    by one draw per step. A variable without a process-noise magnitude raises
    KeyError before anything is drawn. *)
Theorem add_process_noise_failures
        (noise_coef : ref) (var strategy : string) (s : st) :
  implementation cfg <> "Spatial_propagation"%string ->
  add_dynamic_noise cfg = true ->
  (dict_find (dyn_noise cnt) var = None ->
   add_process_noise logit expit np_exp np_log draw_normal cfg cnt
                    noise_coef var strategy s = Raise (KeyError var) s)
  /\ (forall sd coef,
        dict_find (dyn_noise cnt) var = Some sd ->
        nth_error (heap s) noise_coef = Some coef ->
        str_in strategy strategies = false ->
        exists add_vals g,
          np_random draw_normal (of_nat 0) sd (length coef) s
          = Ok add_vals (mkState (heap s) g)
          /\ add_process_noise logit expit np_exp np_log draw_normal cfg cnt
                    noise_coef var strategy s
             = Raise (Exception "Bad perturbation strategy")
                     (mkState (heap s) g)).
Proof.
  intros Himpl Hdyn. apply String.eqb_neq in Himpl.
  unfold add_process_noise. rewrite Himpl, Hdyn. split.
  - intros Hnone. unfold bind, dict_get. now rewrite Hnone.
  - intros sd coef Hsd Hcoef Hstr.
    destruct (np_random_run draw_normal (of_nat 0) sd (length coef) s)
      as [add_vals [g [Hrun Hlen]]].
    exists add_vals, g. split; [exact Hrun|].
    unfold bind, dict_get. rewrite Hsd. cbn [lift_option ret].
    unfold read at 1. rewrite Hcoef. rewrite Hrun.
    unfold strategies in Hstr. rewrite !str_in_cons in Hstr.
    apply orb_false_iff in Hstr as [H1 Hstr].
    apply orb_false_iff in Hstr as [H2 Hstr].
    rewrite H1, H2, !str_in_cons, Hstr. reflexivity.
Qed.

(** Regeneration needs the stored series: without a posterior frame the call
    raises TypeError, without the variable's mean (or standard deviation)
    column KeyError with the column's name; in each case only the re-seeding
    has happened. *)
Theorem create_noise_from_posterior_needs_series
        (strategy var_tmp : string) (s : st) :
  create_noise_from_posterior expit np_seed draw_normal draw_lognormal cfg cnt
                              None strategy var_tmp s
  = Raise (TypeError "'NoneType' object is not subscriptable")
          (mkState (heap s) (seeded np_seed cfg s))
  /\ (forall d,
        dict_find (df_cols d) (var_tmp ++ "_noise_mean") = None ->
        create_noise_from_posterior expit np_seed draw_normal draw_lognormal
                                    cfg cnt (Some d) strategy var_tmp s
        = Raise (KeyError (var_tmp ++ "_noise_mean"))
                (mkState (heap s) (seeded np_seed cfg s)))
  /\ (forall d post_mean,
        dict_find (df_cols d) (var_tmp ++ "_noise_mean") = Some post_mean ->
        dict_find (df_cols d) (var_tmp ++ "_noise_sd") = None ->
        create_noise_from_posterior expit np_seed draw_normal draw_lognormal
                                    cfg cnt (Some d) strategy var_tmp s
        = Raise (KeyError (var_tmp ++ "_noise_sd"))
                (mkState (heap s) (seeded np_seed cfg s))).
Proof.
  unfold create_noise_from_posterior, bind. rewrite reseed_run.
  repeat split.
  - intros d Hm. unfold df_column, dict_get. now rewrite Hm.
  - intros d pm Hm Hsd. unfold df_column, dict_get. now rewrite Hm, Hsd.
Qed.

End NoiseEdges.

Module NoiseEdgeRuns.

Import PrimFloat Sample SampleNoise.
Local Open Scope float_scope.

Lemma create_noise_bounded_needs_bounds_witness :
  create_noise (fun v => v) count_seed count_draw count_draw cfg0 cnt0
               "logitnormal_adi" 5 0 1 "Ta" (mkState [] 7%Z)
  = Raise (KeyError "Ta") (mkState [] 42%Z).
Proof.
  apply (@create_noise_bounded_needs_bounds
           float _ (fun v => v) Z count_seed count_draw count_draw cfg0 cnt0
           "logitnormal_adi" 5 0 1 "Ta" (mkState [] 7%Z)).
  - right. reflexivity.
  - left. reflexivity.
Defined.

Lemma add_process_noise_off_returns_argument_witness :
  add_process_noise (fun v => v) (fun v => v) (fun v => v) (fun v => v)
                    count_draw cfg0 cnt0 0%nat "Prec" "no such strategy"
                    (mkState [[1; 1]] 0%Z)
  = Ok 0%nat (mkState [[1; 1]] 0%Z).
Proof.
  apply (@add_process_noise_off_returns_argument
           float _ (fun v => v) (fun v => v) (fun v => v) (fun v => v) Z
           count_draw cfg0 cnt0).
  right. reflexivity.
Defined.

Lemma add_process_noise_normal_adds_running_sum_witness :
  exists add_vals g out,
    np_random count_draw (of_nat 0) 0.5 2 (mkState [[1; 1]] 0%Z)
    = Ok add_vals (mkState [[1; 1]] g)
    /\ out = map (fun p => fadd (fst p) (snd p))
                 (combine [1; 1] (np_cumsum add_vals))
    /\ length out = 2%nat
    /\ add_process_noise (fun v => v) (fun v => v) (fun v => v) (fun v => v)
                         count_draw cfg_dynamic cnt_dynamic 0%nat "Ta"
                         "normal" (mkState [[1; 1]] 0%Z)
       = Ok 1%nat (mkState ([[1; 1]] ++ [out]) g).
Proof.
  apply (@add_process_noise_normal_adds_running_sum
           float _ (fun v => v) (fun v => v) (fun v => v) (fun v => v) Z
           count_draw cfg_dynamic cnt_dynamic 0%nat "Ta" 0.5 [1; 1]
           (mkState [[1; 1]] 0%Z)).
  - discriminate.
  - reflexivity.
  - reflexivity.
  - reflexivity.
Defined.

Lemma add_process_noise_failures_witness :
  add_process_noise (fun v => v) (fun v => v) (fun v => v) (fun v => v)
                    count_draw cfg_dynamic cnt_dynamic 0%nat "Prec" "normal"
                    (mkState [[1; 1]] 0%Z)
  = Raise (KeyError "Prec") (mkState [[1; 1]] 0%Z).
Proof.
  apply (@add_process_noise_failures
           float _ (fun v => v) (fun v => v) (fun v => v) (fun v => v) Z
           count_draw cfg_dynamic cnt_dynamic 0%nat "Prec" "normal"
           (mkState [[1; 1]] 0%Z)).
  - discriminate.
  - reflexivity.
  - reflexivity.
Defined.

End NoiseEdgeRuns.

(* ------------------------------------------------------------------------- *)
(** ** What perturb_parameters keeps *)

Lemma lift_option_Ok {S A} (e : exc) (o : option A) (s s' : S) (a : A) :
  lift_option e o s = Ok a s' -> o = Some a /\ s' = s.
Proof.
  destruct o as [x|]; simpl; [|discriminate].
  unfold ret. intros H. injection H as -> ->. now split.
Qed.

Lemma dict_find_set_same {V} (d : dict V) (k : string) (v : V) :
  dict_find (dict_set d k v) k = Some v.
Proof.
  induction d as [|[k' v'] t IH]; simpl.
  - now rewrite String.eqb_refl.
  - destruct (String.eqb k' k) eqn:E; simpl; rewrite E; [reflexivity|].
    exact IH.
Qed.

Lemma dict_find_set_other {V} (d : dict V) (k k' : string) (v : V) :
  k' <> k -> dict_find (dict_set d k v) k' = dict_find d k'.
Proof.
  intros Hne. induction d as [|[k0 v0] t IH]; simpl.
  - destruct (String.eqb k k') eqn:E; [|reflexivity].
    apply String.eqb_eq in E. congruence.
  - destruct (String.eqb k0 k) eqn:E; simpl.
    + apply String.eqb_eq in E. subst k0.
      destruct (String.eqb k k') eqn:E'; [|reflexivity].
      apply String.eqb_eq in E'. congruence.
    + destruct (String.eqb k0 k'); [reflexivity | exact IH].
Qed.

Section Perturb.

Context {F : Type} {num : NumOps F}.
Variables logit expit np_exp np_log : F -> F.
Variable Rng : Type.
Variable np_seed : Z -> Rng.
Variable draw_normal : F -> F -> Rng -> F * Rng.
Variable draw_lognormal : F -> F -> Rng -> F * Rng.
Variable cfg : config.
Variable cnt : constants F.

Local Abbreviation st := (state F Rng).

Variable spM_read_parameter :
  option string -> option Z -> option Z -> string -> option Z -> M st (list F).


(** On an update the noise handed in must have one entry per perturbed
    variable: a missing [noise] raises TypeError and one of another length
    the exception "Something wrong with kalman noise", both before the loop,
    with the store and the generator unchanged. *)
Theorem perturb_parameters_checks_update_noise
        (main_forcing : dataframe F) (lat_idx lon_idx : option Z)
        (posteriors : option (dataframe F)) (member : option Z)
        (readGSC : bool) (GSC_filename : option string) (s : st) :
  length (vars_to_perturbate cfg) = length (perturbation_strategy cfg) ->
  perturb_parameters logit expit np_exp np_log np_seed draw_normal
                     draw_lognormal cfg cnt spM_read_parameter
                     main_forcing lat_idx lon_idx posteriors member None
                      true readGSC GSC_filename s
  = Raise (TypeError "object of type 'NoneType' has no len()") s
  /\ forall noise,
       length noise <> length (vars_to_perturbate cfg) ->
       perturb_parameters logit expit np_exp np_log np_seed draw_normal
                     draw_lognormal cfg cnt spM_read_parameter
                     main_forcing lat_idx lon_idx posteriors member
                           (Some noise) true readGSC GSC_filename s
       = Raise (Exception "Something wrong with kalman noise") s.
Proof.
  intros Hlen. unfold perturb_parameters.
  rewrite Hlen, Nat.eqb_refl. cbn [negb]. split.
  - reflexivity.
  - intros noise Hne. unfold bind, len_noise, ret.
    rewrite <- Hlen.
    assert (E : Nat.eqb (length (vars_to_perturbate cfg)) (length noise)
                = false) by (apply Nat.eqb_neq; congruence).
    now rewrite E.
Qed.

(** One pass of the loop rewrites one column, of a perturbed variable, and
    keeps the number of rows. *)
Lemma perturb_step_frame
      (lat_idx lon_idx : option Z) (posteriors : option (dataframe F))
      (member : option Z) (noise : option (list (list F)))
      (update readGSC : bool) (GSC_filename : option string) (n_steps : nat)
      (acc acc' : dataframe F * dict (option ref)) (idv : nat) (s s' : st) :
  perturb_step logit expit np_exp np_log np_seed draw_normal
               draw_lognormal cfg cnt spM_read_parameter lat_idx lon_idx posteriors member noise update readGSC
                GSC_filename n_steps acc idv s = Ok acc' s' ->
  df_len (fst acc') = df_len (fst acc)
  /\ exists var,
       In var (vars_to_perturbate cfg)
       /\ forall name, name <> var ->
            dict_find (df_cols (fst acc')) name
            = dict_find (df_cols (fst acc)) name.
Proof.
  destruct acc as [fc ns]. unfold perturb_step. intros H.
  apply bind_Ok in H as (var & s1 & Hvar & H).
  apply lift_option_Ok in Hvar as [Hvar _].
  apply bind_Ok in H as (strategy & s2 & _ & H).
  apply bind_Ok in H as (r0 & s3 & _ & H).
  apply bind_Ok in H as (r1 & s4 & _ & H).
  apply bind_Ok in H as (coef & s5 & _ & H).
  apply bind_Ok in H as (column & s6 & _ & H).
  apply bind_Ok in H as (perturbed & s7 & _ & H).
  apply bind_Ok in H as (fc' & s8 & Hset & H).
  unfold ret in H. injection H as <- _.
  unfold df_set_column in Hset.
  destruct (Nat.eqb (length perturbed) (df_len fc)); [|discriminate].
  unfold ret in Hset. injection Hset as <- _. cbn [fst df_len df_cols].
  split; [reflexivity|].
  exists var. split; [eapply nth_error_In; eassumption|].
  intros name Hne. now apply dict_find_set_other.
Qed.

Lemma for_each_invariant {A X} (P : A -> Prop) (body : A -> X -> M st A)
      (l : list X) :
  (forall a x s a' s', body a x s = Ok a' s' -> P a -> P a') ->
  forall a s a' s', for_each body a l s = Ok a' s' -> P a -> P a'.
Proof.
  intros Hstep. induction l as [|x t IH]; intros a s a' s' H Ha; simpl in H.
  - unfold ret in H. now injection H as <- _.
  - apply bind_Ok in H as (a1 & s1 & H1 & H).
    eapply IH; [exact H|]. eapply Hstep; eassumption.
Qed.

(** The forcing [perturb_parameters] returns has the rows of the forcing it
    was given, and every column that is not a perturbed variable is returned
    as it came. *)
Theorem perturb_parameters_keeps_shape_and_other_columns
        (main_forcing forcing : dataframe F) (lat_idx lon_idx : option Z)
        (posteriors : option (dataframe F)) (member : option Z)
        (noise : option (list (list F))) (update readGSC : bool)
        (GSC_filename : option string) (storage : dict (option ref))
        (s s' : st) :
  perturb_parameters logit expit np_exp np_log np_seed draw_normal
                     draw_lognormal cfg cnt spM_read_parameter
                     main_forcing lat_idx lon_idx posteriors member noise
                      update readGSC GSC_filename s
  = Ok (forcing, storage) s' ->
  df_len forcing = df_len main_forcing
  /\ forall name, ~ In name (vars_to_perturbate cfg) ->
       dict_find (df_cols forcing) name
       = dict_find (df_cols main_forcing) name.
Proof.
  unfold perturb_parameters. intros H.
  destruct (negb _); [discriminate|].
  apply bind_Ok in H as (u & s1 & _ & H).
  pose (P := fun acc : dataframe F * dict (option ref) =>
               df_len (fst acc) = df_len main_forcing
               /\ forall name, ~ In name (vars_to_perturbate cfg) ->
                    dict_find (df_cols (fst acc)) name
                    = dict_find (df_cols main_forcing) name).
  change (P (forcing, storage)).
  eapply (for_each_invariant P); [|exact H|].
  - intros a x s0 a' s0' Hstep [Hl Hc].
    apply perturb_step_frame in Hstep as [Hl' (var & Hin & Hother)].
    split; [congruence|].
    intros name Hname. rewrite Hother; [now apply Hc|].
    intros ->. contradiction.
  - split; [reflexivity|]. intros name _. reflexivity.
Qed.

End Perturb.

Module PerturbRuns.

Import PrimFloat Sample SampleNoise.
Local Open Scope float_scope.

Lemma perturb_parameters_checks_update_noise_witness :
  perturb_parameters (fun v => v) (fun v => v) (fun v => v) (fun v => v)
                     count_seed count_draw count_draw cfg_two cnt_two
                     no_GSC forcing0 None None None None None
                     true false None (mkState [] 0%Z)
  = Raise (TypeError "object of type 'NoneType' has no len()")
          (mkState [] 0%Z).
Proof.
  apply (@perturb_parameters_checks_update_noise
           float _ (fun v => v) (fun v => v) (fun v => v) (fun v => v) Z
           count_seed count_draw count_draw cfg_two cnt_two no_GSC forcing0
           None None None None false None (mkState [] 0%Z)).
  reflexivity.
Defined.

(** A run on two variables of a table of three. *)
Lemma perturb_parameters_keeps_shape_and_other_columns_witness :
  df_len forcing1 = df_len forcing0
  /\ forall name, ~ In name (vars_to_perturbate cfg_two) ->
       dict_find (df_cols forcing1) name = dict_find (df_cols forcing0) name.
Proof.
  eapply (@perturb_parameters_keeps_shape_and_other_columns
            float _ (fun v => v) (fun v => v) (fun v => v) (fun v => v) Z
            count_seed count_draw count_draw cfg_two cnt_two no_GSC forcing0
            forcing1 None None None None None false false None)
    with (s := mkState [] 0%Z).
  vm_compute. reflexivity.
Defined.

End PerturbRuns.

(* ------------------------------------------------------------------------- *)
(** ** Redrawing *)

Section Redraw.

Context {F : Type} {num : NumOps F}.
Variables expit np_exp : F -> F.
Variable Rng : Type.
Variable draw_randn : Rng -> F * Rng.
Variable cfg : config.

Local Abbreviation st := (state F Rng).

Lemma redraw_step_outcome (cnt : constants F) (func_shape : list (list F))
      (storage : list F) (item : nat * string) (s : st) :
  redraw_outcome s (length storage)
    (redraw_step expit np_exp draw_randn cfg cnt func_shape storage item s).
Proof.
  destruct item as [count var].
  unfold redraw_step, redraw_outcome, bind, item2, bind, lift_option, ret,
    raise, str_eq_list, set_item.
  repeat match goal with
         | |- context [match nth_error ?l ?i with _ => _ end] =>
             destruct (nth_error l i)
         | |- context [let (_, _) := ?d in _] => destruct d
         | |- context [if ?b then _ else _] => destruct b
         end;
    cbn [heap map];
    (split; [reflexivity | first [reflexivity | apply list_set_length]]).
Qed.

Lemma redraw_loop_outcome (cnt : constants F) (func_shape : list (list F))
      (items : list (nat * string)) (storage : list F) (s : st) :
  redraw_outcome s (length storage)
    (for_each (redraw_step expit np_exp draw_randn cfg cnt func_shape)
              storage items s).
Proof.
  revert storage s; induction items as [|item t IH]; intros storage s.
  - simpl. now split.
  - simpl. unfold bind.
    pose proof (redraw_step_outcome cnt func_shape storage item s) as Hstep.
    destruct (redraw_step _ _ _ _ _ _ _ _ _) as [storage1 s1|e s1];
      [|exact Hstep].
    destruct Hstep as [Hheap Hlen].
    pose proof (IH storage1 s1) as Hrest.
    destruct (for_each _ _ _ _) as [storage2 s2|e s2];
      destruct Hrest as [Hheap' H2]; split; congruence.
Qed.

(** [redraw] compares a strategy name with a list of names, which is never
    equal: the branch that would map a redrawn value through [gexpit] is
    never taken. The bounds are not read (the result is the same under any
    two constants), the store is not written, the only exception possible is
    IndexError, and the storage returned has one entry per strategy. *)
Theorem redraw_never_applies_bounds
        (cnt1 cnt2 : constants F) (func_shape : list (list F)) (s : st) :
  redraw expit np_exp draw_randn cfg cnt1 func_shape s
  = redraw expit np_exp draw_randn cfg cnt2 func_shape s
  /\ match redraw expit np_exp draw_randn cfg cnt1 func_shape s with
     | Ok storage s' =>
         heap s' = heap s
         /\ length storage = length (perturbation_strategy cfg)
     | Raise e s' => heap s' = heap s /\ e = IndexError
     end.
Proof.
  split; [reflexivity|].
  unfold redraw.
  pose proof (redraw_loop_outcome cnt1 func_shape
                (combine (seq 0 (length (perturbation_strategy cfg)))
                         (perturbation_strategy cfg))
                (repeat (of_nat 1) (length (perturbation_strategy cfg))) s)
    as H.
  rewrite repeat_length in H. exact H.
Qed.

End Redraw.

(* ------------------------------------------------------------------------- *)
(** ** There and back: gexpit on the result of glogit *)

Section RoundTrip.

Context {F : Type} {num : NumOps F}.
Variable Rng : Type.
Variables logit expit : F -> F.

Local Abbreviation st := (state F Rng).




End RoundTrip.

Module B64RoundTrip.

Import PrimFloat SampleRoundTrip.
Import SpecFloat FloatOps FloatAxioms.
Local Open Scope float_scope.

(** Infinities and NaN absorb: a product, sum or difference with one of them
    on the left is one of them, and its absolute value is below nothing. *)
Lemma mul_inf_or_nan (a e : float) :
  inf_or_nan a = true -> inf_or_nan (a * e) = true.
Proof.
  unfold inf_or_nan. rewrite mul_spec.
  destruct (Prim2SF a) as [[|]|[|]| |[|] m x]; try discriminate;
    destruct (Prim2SF e) as [[|]|[|]| |[|] m' x']; reflexivity.
Qed.

Lemma add_inf_or_nan (a b : float) :
  inf_or_nan a = true -> inf_or_nan (a + b) = true.
Proof.
  unfold inf_or_nan. rewrite add_spec.
  destruct (Prim2SF a) as [[|]|[|]| |[|] m x]; try discriminate;
    destruct (Prim2SF b) as [[|]|[|]| |[|] m' x']; reflexivity.
Qed.

Lemma sub_inf_or_nan (a b : float) :
  inf_or_nan a = true -> inf_or_nan (a - b) = true.
Proof.
  unfold inf_or_nan. rewrite sub_spec.
  destruct (Prim2SF a) as [[|]|[|]| |[|] m x]; try discriminate;
    destruct (Prim2SF b) as [[|]|[|]| |[|] m' x']; reflexivity.
Qed.

Lemma abs_inf_or_nan_not_below (a tol : float) :
  inf_or_nan a = true -> ltb (abs a) tol = false.
Proof.
  unfold inf_or_nan. rewrite ltb_spec, abs_spec.
  destruct (Prim2SF a) as [[|]|[|]| |[|] m x]; try discriminate;
    destruct (Prim2SF tol) as [[|]|[|]| |[|] m' x']; reflexivity.
Qed.

Lemma unscale_far (lo hi e : float) :
  inf_or_nan (hi - lo) = true ->
  inf_or_nan (unscale01 lo hi e) = true
  /\ forall tol v, closer_than tol (unscale01 lo hi e) v = false.
Proof.
  intros Hfar.
  assert (H : inf_or_nan (unscale01 lo hi e) = true).
  { unfold unscale01. cbn [fadd fmul fsub NumOps_b64].
    now apply add_inf_or_nan, mul_inf_or_nan. }
  split; [exact H|]. intros tol v. unfold closer_than.
  cbn [fltb fabs fsub NumOps_b64].
  now apply abs_inf_or_nan_not_below, sub_inf_or_nan.
Qed.

Section Far.

Variable Rng : Type.
Variable expit : float -> float.

(** X15. In binary64, when the difference of the bounds has overflowed (or is
    NaN), [gexpit] returns an array of the argument's length in which every
    entry is an infinity or NaN, whatever [expit] computes, so that no entry
    is within any tolerance of any value. *)
Theorem gexpit_with_overflowing_bounds_returns_nothing_finite
        (xt : ref) (lo hi : float) (s : state float Rng) (xv : list float) :
  nth_error (heap s) xt = Some xv ->
  inf_or_nan (hi - lo) = true ->
  exists out,
    returned_array (gexpit expit xt lo hi s) = inr (Some out)
    /\ length out = length xv
    /\ Forall (fun o => inf_or_nan o = true
                        /\ forall tol v, closer_than tol o v = false) out.
Proof.
  intros Hx Hfar.
  exists (map (unscale01 lo hi) (map expit (map (nudged lo hi) xv))).
  rewrite (gexpit_run expit _ lo hi _ Hx).
  unfold returned_array. cbn [heap]. split; [|split].
  - f_equal. apply nth_error_last2. now rewrite list_set_length.
  - now rewrite !length_map.
  - apply Forall_map, Forall_forall. intros e _. now apply unscale_far.
Qed.

End Far.



(** With the bounds -2^1023 and 2^1023 the transformed value 0, for which
    expit is 0.5, comes back as an infinity. *)
Lemma gexpit_with_overflowing_bounds_returns_nothing_finite_witness :
  exists out,
    returned_array
      (gexpit expit_about_zero 0%nat lo_far hi_far (mkState [[0]] 0%Z))
    = inr (Some out)
    /\ length out = 1%nat
    /\ Forall (fun o => inf_or_nan o = true
                        /\ forall tol v, closer_than tol o v = false) out.
Proof.
  apply (@gexpit_with_overflowing_bounds_returns_nothing_finite
           Z expit_about_zero 0%nat lo_far hi_far (mkState [[0]] 0%Z) [0]).
  - reflexivity.
  - vm_compute. reflexivity.
Defined.

End B64RoundTrip.

(* ------------------------------------------------------------------------- *)
(** ** The precipitation phase *)

Section PhaseShapes.

Context {F : Type} {num : NumOps F}.
Variable np_exp : F -> F.
Variable Rng : Type.
Variable KELVING_CONVER : F.

Local Abbreviation st := (state F Rng).

Lemma broadcast2_same_length (op : F -> F -> F) (a b : list F) (s : st) :
  length a = length b -> broadcast2 op a b s = Ok (zip_with op a b) s.
Proof.
  intros H. unfold broadcast2. rewrite H, Nat.eqb_refl. reflexivity.
Qed.

Lemma broadcast2_mismatch (op : F -> F -> F) (a b : list F) (s : st) :
  length a <> length b -> length a <> 1 -> length b <> 1 ->
  broadcast2 op a b s = Raise ValueError s.
Proof.
  intros Hab Ha Hb. unfold broadcast2.
  destruct (Nat.eqb_spec (length a) (length b)) as [E|_]; [contradiction|].
  destruct a as [|x [|x' a]]; destruct b as [|y [|y' b]];
    simpl in *; try reflexivity; contradiction.
Qed.

Lemma zip_with_length {A B C} (op : A -> B -> C) (a : list A) (b : list B) :
  length a = length b -> length (zip_with op a b) = length a.
Proof.
  intros H. unfold zip_with. rewrite length_map, length_combine. lia.
Qed.

(** X20. Both phase functions multiply the precipitation by a fraction
    computed from the temperature, entry by entry: when the two arrays differ
    in length and neither has one entry, numpy cannot broadcast them and the
    call raises ValueError, leaving the store as it was. *)
Theorem phase_functions_reject_mismatched_lengths
        (ta2 precc : list F) (s : st) :
  length ta2 <> length precc -> length ta2 <> 1 -> length precc <> 1 ->
  pp_temp_thld_log np_exp ta2 precc s = Raise ValueError s
  /\ linear_liston KELVING_CONVER ta2 precc s = Raise ValueError s.
Proof.
  intros Hne Ht Hp. split.
  - unfold pp_temp_thld_log, bind.
    rewrite broadcast2_mismatch; [reflexivity| | |assumption];
      now rewrite !length_map.
  - unfold linear_liston, bind, clip_below, clip_above.
    rewrite broadcast2_mismatch; [reflexivity| |assumption|];
      rewrite !length_map; congruence.
Qed.

End PhaseShapes.

Module B64Phase.

Import PrimFloat.
Local Open Scope float_scope.

Section Clipped.

Variable np_exp : float -> float.
Variable Rng : Type.
Variable KELVING_CONVER : float.

Lemma clip_unit (l : list float) :
  Forall (fun f => ltb 1 f = false /\ ltb f 0 = false)
         (clip_below (of_nat 0) (clip_above (of_nat 1) l)).
Proof.
  unfold clip_below, clip_above. rewrite map_map.
  apply Forall_map, Forall_forall. intros v _.
  cbn [fltb NumOps_b64].
  replace (@of_nat float NumOps_b64 1) with 1 by (vm_compute; reflexivity).
  replace (@of_nat float NumOps_b64 0) with 0 by (vm_compute; reflexivity).
  destruct (ltb 1 v) eqn:E1.
  - vm_compute. auto.
  - destruct (ltb v 0) eqn:E0.
    + vm_compute. auto.
    + auto.
Qed.

Lemma clip_below_zero (l : list float) :
  Forall2 (fun d sd => sd = d \/ (ltb d 0 = true /\ sd = 0))
          l (clip_below (of_nat 0) l)
  /\ Forall (fun v => ltb v 0 = false) (clip_below (of_nat 0) l).
Proof.
  unfold clip_below. cbn [fltb NumOps_b64].
  replace (@of_nat float NumOps_b64 0) with 0 by (vm_compute; reflexivity).
  induction l as [|d l [IH2 IH]]; cbn [map]; [split; constructor|].
  split; constructor; try assumption.
  - destruct (ltb d 0) eqn:E; auto.
  - destruct (ltb d 0) eqn:E; [vm_compute; reflexivity|assumption].
Qed.

(** X18. In binary64, [linear_liston] on arrays of one length returns the
    precipitation multiplied, entry by entry, by a snowfall fraction (solid)
    and by one minus that fraction (liquid); no fraction compares above 1 or
    below 0, whatever the temperatures and the conversion constant are, NaN
    included. The store is left as it was. *)
Theorem linear_liston_splits_by_a_clipped_fraction
        (ta2 precc : list float) (s : state float Rng) :
  length precc = length ta2 ->
  exists frac,
    linear_liston KELVING_CONVER ta2 precc s
    = Ok (zip_with mul precc (map (sub 1) frac), zip_with mul precc frac) s
    /\ length frac = length ta2
    /\ Forall (fun f => ltb 1 f = false /\ ltb f 0 = false) frac.
Proof.
  intros Hlen. unfold linear_liston.
  set (frac := clip_below _ (clip_above _ _)).
  assert (Hfrac : length frac = length ta2).
  { unfold frac, clip_below, clip_above. now rewrite !length_map. }
  exists frac. split; [|split].
  - unfold bind.
    rewrite broadcast2_same_length by congruence.
    rewrite broadcast2_same_length by (rewrite length_map; congruence).
    cbn [fmul fsub NumOps_b64].
    replace (@of_nat float NumOps_b64 1) with 1 by (vm_compute; reflexivity).
    reflexivity.
  - exact Hfrac.
  - apply clip_unit.
Qed.

(** X19. In binary64, [pp_temp_thld_log] on arrays of one length returns a
    liquid and a solid part of that length; each entry of the solid part is
    the precipitation minus the liquid part, or 0 where that difference
    compares below 0, so that no entry of the solid part compares below 0,
    whatever [np.exp] returns. The store is left as it was. *)
Theorem pp_temp_thld_log_solid_is_never_negative
        (ta2 precc : list float) (s : state float Rng) :
  length precc = length ta2 ->
  exists liquid solid,
    pp_temp_thld_log np_exp ta2 precc s = Ok (liquid, solid) s
    /\ length liquid = length ta2
    /\ length solid = length ta2
    /\ Forall2 (fun d sd => sd = d \/ (ltb d 0 = true /\ sd = 0))
               (zip_with sub precc liquid) solid
    /\ Forall (fun v => ltb v 0 = false) solid.
Proof.
  intros Hlen. unfold pp_temp_thld_log.
  set (p_multi := map _ (map np_exp _)).
  assert (Hp : length p_multi = length ta2).
  { unfold p_multi. now rewrite !length_map. }
  assert (Hl : length (zip_with mul p_multi precc) = length ta2).
  { rewrite zip_with_length; congruence. }
  exists (zip_with mul p_multi precc),
    (clip_below (of_nat 0) (zip_with sub precc (zip_with mul p_multi precc))).
  unfold bind.
  rewrite broadcast2_same_length by congruence.
  rewrite broadcast2_same_length by (rewrite zip_with_length; congruence).
  cbn [fmul fsub NumOps_b64].
  split; [reflexivity|]. split; [exact Hl|]. split.
  - unfold clip_below. rewrite length_map, zip_with_length; congruence.
  - apply clip_below_zero.
Qed.

End Clipped.

(** Half a degree above the conversion constant the fraction lies between 0
    and 1; five degrees above it is clipped to 0, and five below to 1. *)
Lemma linear_liston_splits_by_a_clipped_fraction_witness :
  exists frac,
    linear_liston 273 [273.5; 278; 268] [1; 2; 4] (mkState [] 0%Z)
    = Ok (zip_with mul [1; 2; 4] (map (sub 1) frac),
          zip_with mul [1; 2; 4] frac) (mkState [] 0%Z)
    /\ length frac = 3%nat
    /\ Forall (fun f => ltb 1 f = false /\ ltb f 0 = false) frac.
Proof.
  apply (@linear_liston_splits_by_a_clipped_fraction
           Z 273 [273.5; 278; 268] [1; 2; 4] (mkState [] 0%Z)).
  reflexivity.
Defined.

(** Two steps, with the constant 1 in the place of [np.exp]. *)
Lemma pp_temp_thld_log_solid_is_never_negative_witness :
  exists liquid solid,
    pp_temp_thld_log (fun t => 1) [274; 270] [2; 4] (mkState [] 0%Z)
    = Ok (liquid, solid) (mkState [] 0%Z)
    /\ length liquid = 2%nat
    /\ length solid = 2%nat
    /\ Forall2 (fun d sd => sd = d \/ (ltb d 0 = true /\ sd = 0))
               (zip_with sub [2; 4] liquid) solid
    /\ Forall (fun v => ltb v 0 = false) solid.
Proof.
  apply (@pp_temp_thld_log_solid_is_never_negative
           (fun t => 1) Z [274; 270] [2; 4] (mkState [] 0%Z)).
  reflexivity.
Defined.

(** Three temperatures against two precipitation values. *)
Lemma phase_functions_reject_mismatched_lengths_witness :
  pp_temp_thld_log (fun t => 1) [270; 271; 272] [1; 2] (mkState [] 0%Z)
  = Raise ValueError (mkState [] 0%Z)
  /\ linear_liston 273 [270; 271; 272] [1; 2] (mkState [] 0%Z)
     = Raise ValueError (mkState [] 0%Z).
Proof.
  apply (@phase_functions_reject_mismatched_lengths
           float _ (fun t => 1) Z 273 [270; 271; 272] [1; 2]
           (mkState [] 0%Z)); simpl; lia.
Defined.

End B64Phase.
